(** * brickblock: the pipeline engine of [brickblock/pipeline/base_pipeline.py]

    A shallow embedding of the [Pipeline] class: the fluent builder
    ([init], [input], [output], [functions], [modules]), the two compiled
    forms ([to_function], [to_afunction]), the error boundaries ([build],
    [abuild]), the raw entry points ([arun], [arun_modules]) and the
    server-sent-events generator ([sse_generator]).

    Python objects are modelled by an inductive type of values, raised
    exceptions by an explicit [result] type, the in-place mutation of the
    pipeline object by state passing, and the asynchronous generator by the
    list of frames it yields together with the way it stops. *)

From Stdlib Require Import List String Bool Arith Lia.
Import ListNotations.
Local Open Scope string_scope.
Local Open Scope list_scope.

Set Implicit Arguments.
Set Warnings "-register-all".

(** ** Exceptions *)

(** The class of a raised object, as the [except] clauses of the source
    tell them apart: [except TypeError], [except ValueError],
    [except Exception].  [BaseOnly] stands for the classes that derive from
    [BaseException] but not from [Exception] (KeyboardInterrupt, SystemExit,
    GeneratorExit, asyncio.CancelledError): no clause of the source names
    them. *)
Inductive exn_class : Type :=
| TypeError
| ValueError
| OtherException
| BaseOnly.

Record exn : Type := mkExn {
  exn_kind : exn_class;
  exn_str : string          (* str(e) *)
}.

(** [isinstance(e, Exception)] *)
Definition is_Exception (e : exn) : bool :=
  match exn_kind e with
  | BaseOnly => false
  | _ => true
  end.

Definition AttributeError (msg : string) : exn := mkExn OtherException msg.
Definition KeyError (key : string) : exn := mkExn OtherException ("'" ++ key ++ "'").
Definition PlainException (msg : string) : exn := mkExn OtherException msg.
Definition NoneType_not_callable : exn :=
  mkExn TypeError "'NoneType' object is not callable".

(** A computation either returns or raises. *)
Inductive result (A : Type) : Type :=
| Return (a : A)
| Raise (e : exn).
Arguments Return {A} a.
Arguments Raise {A} e.

Definition bind {A B : Type} (m : result A) (k : A -> result B) : result B :=
  match m with
  | Return a => k a
  | Raise e => Raise e
  end.

Notation "x <- m ;; k" := (bind m (fun x => k))
  (at level 61, m at next level, right associativity).

(** [try: m  except Exception as e: h e] *)
Definition try_except_Exception {A : Type} (m : result A) (h : exn -> result A)
  : result A :=
  match m with
  | Return a => Return a
  | Raise e => if is_Exception e then h e else Raise e
  end.

(** ** Values *)

(** A pydantic model class (a subclass of [BaseModel]) is known by its name;
    class identity is name equality. *)
Definition Model : Type := string.

Inductive value : Type :=
| VNone
| VBool (b : bool)
| VInt (n : nat)
| VStr (s : string)
| VList (l : list value)
| VDict (d : list (string * value))
| VModel (cls : Model) (fields : list (string * value)).

(** A Python [dict] with string keys, in insertion order. *)
Definition dict : Type := list (string * value).

Fixpoint dict_get (d : dict) (k : string) : option value :=
  match d with
  | [] => None
  | (k', v) :: d' => if String.eqb k' k then Some v else dict_get d' k
  end.

(** [isinstance(v, BaseModel)] *)
Definition is_BaseModel (v : value) : bool :=
  match v with
  | VModel _ _ => true
  | _ => false
  end.

(** [v.model_dump()] (and the older spelling [v.dict()]). *)
Definition model_dump (v : value) : result dict :=
  match v with
  | VModel _ fields => Return fields
  | _ => Raise (AttributeError "object has no attribute 'model_dump'")
  end.

(** What [json.dumps] accepts: everything but a model instance, which is
    not JSON serializable. *)
Fixpoint json_serializable (v : value) : bool :=
  match v with
  | VModel _ _ => false
  | VList l => forallb json_serializable l
  | VDict d => forallb (fun kv => match kv with (_, x) => json_serializable x end) d
  | _ => true
  end.

(** ** Steps *)

(** Modelled from the spec: the class [brickblock.function.Function], which
    the pipeline imports from another module of the package.  A
    function step wraps a blocking or suspend-capable callable plus its
    declared input and output schema and an optional display label; here it
    has the attributes the pipeline reads.  [fn_to_function data] is
    [f.to_function()(data)], [fn_to_afunction data] is
    [await f.to_afunction()(data)]. *)
Record Function : Type := mkFunction {
  fn_name : string;
  fn_label : string;
  fn_input_model : option Model;
  fn_output_model : option Model;
  fn_to_function : value -> result value;
  fn_to_afunction : value -> result value
}.

(** What a lifecycle hook leaves when it returns: the message it returns,
    the attributes of the instance, and the object it was handed.  The hook
    holds that object by reference and may modify it in place; the caller
    goes on with the object as the hook left it. *)
Record hook_result (S : Type) : Type := mkHooked {
  said : string;
  self_after : S;
  data_after : value
}.

(** Modelled from the spec: a class deriving from
    [brickblock.abstract.BaseModule], which the pipeline imports.  A module
    step exposes a suspend-capable [run] and two suspend-capable lifecycle
    hooks that return human-readable strings, invoked before and after
    [run].  [mod_new] is the call [mod()]; the three coroutines of the
    instance read and write the attributes of the instance, of type
    [mod_state].  What [run] does to its argument is not kept: the loop
    replaces [data] by what [run] returns. *)
Record ModuleClass : Type := mkModule {
  mod_name : string;                                  (* mod.__name__ *)
  mod_state : Type;
  mod_new : result mod_state;
  onProgressStartMessage : mod_state -> value -> result (hook_result mod_state);
  run : mod_state -> value -> result (value * mod_state);
  run_annotations : list (string * Model);            (* run.__annotations__ *)
  onProgressEndMessage : mod_state -> value -> result (hook_result mod_state)
}.

(** What a caller can hand to [functions] or [modules], and so what
    [list_functions] can hold. *)
Inductive pyobj : Type :=
| OFunction (f : Function)      (* an instance of Function *)
| OModule (m : ModuleClass)     (* a class deriving from BaseModule *)
| OClass (name : string)        (* any other class *)
| OCallable (name : string).    (* any other object: a def, a lambda, an instance *)

(** [isinstance(f, Function)] *)
Definition is_Function (o : pyobj) : bool :=
  match o with
  | OFunction _ => true
  | _ => false
  end.

(** [issubclass(o, BaseModule)]: raises on an object that is not a class;
    [Some m] is [True] (with [o] seen as the module class it is), [None] is
    [False]. *)
Definition issubclass_BaseModule (o : pyobj) : result (option ModuleClass) :=
  match o with
  | OModule m => Return (Some m)
  | OClass _ => Return None
  | _ => Raise (mkExn TypeError "issubclass() arg 1 must be a class")
  end.

Fixpoint annotation (ann : list (string * Model)) (key : string) : result Model :=
  match ann with
  | [] => Raise (KeyError key)
  | (k, m) :: ann' => if String.eqb k key then Return m else annotation ann' key
  end.

(** The attribute reads of the two inference blocks.  The schemas are
    attributes of Function instances, [run] is a method of module classes;
    on any other object the read raises AttributeError. *)

(** [o.input_model] *)
Definition attr_input_model (o : pyobj) : result (option Model) :=
  match o with
  | OFunction f => Return (fn_input_model f)
  | _ => Raise (AttributeError "object has no attribute 'input_model'")
  end.

(** [o.output_model] *)
Definition attr_output_model (o : pyobj) : result (option Model) :=
  match o with
  | OFunction f => Return (fn_output_model f)
  | _ => Raise (AttributeError "object has no attribute 'output_model'")
  end.

(** [o.run.__annotations__[key]] *)
Definition attr_run_annotation (key : string) (o : pyobj) : result (option Model) :=
  match o with
  | OModule m => x <- annotation (run_annotations m) key ;; Return (Some x)
  | _ => Raise (AttributeError "object has no attribute 'run'")
  end.

(** ** The pipeline object *)

Record Pipeline : Type := mkPipeline {
  name : string;
  id : string;
  sse : bool;
  input_model : option Model;
  output_model : option Model;
  list_functions : list pyobj
}.

Definition set_input_model (self : Pipeline) (m : option Model) : Pipeline :=
  mkPipeline (name self) (id self) (sse self) m (output_model self)
             (list_functions self).

Definition set_output_model (self : Pipeline) (m : option Model) : Pipeline :=
  mkPipeline (name self) (id self) (sse self) (input_model self) m
             (list_functions self).

Definition set_sse (self : Pipeline) (b : bool) : Pipeline :=
  mkPipeline (name self) (id self) b (input_model self) (output_model self)
             (list_functions self).

(** [self.list_functions.append(o)] *)
Definition append_function (self : Pipeline) (o : pyobj) : Pipeline :=
  mkPipeline (name self) (id self) (sse self) (input_model self)
             (output_model self) (list_functions self ++ [o]).

(** [self] after [objs] were appended one by one. *)
Definition extend (self : Pipeline) (objs : list pyobj) : Pipeline :=
  mkPipeline (name self) (id self) (sse self) (input_model self)
             (output_model self) (list_functions self ++ objs).

(** [Pipeline.init(name, id, sse)]; [uuid4] is the string that
    [str(uuid.uuid4())] would produce.  An empty [id] is falsy. *)
Definition init (name : string) (id : option string) (sse : bool)
                (uuid4 : string) : Pipeline :=
  mkPipeline name
             (match id with
              | Some s => if String.eqb s "" then uuid4 else s
              | None => uuid4
              end)
             sse None None [].

(** [self.input(input_model)] and [self.output(output_model)]: plain
    assignments. *)
Definition input (input_model : Model) (self : Pipeline) : Pipeline :=
  set_input_model self (Some input_model).

Definition output (output_model : Model) (self : Pipeline) : Pipeline :=
  set_output_model self (Some output_model).

(** A method that mutates [self] and may raise: the state of [self] when
    the call ends, and how it ends. *)
Definition method (A : Type) : Type := Pipeline -> Pipeline * result A.

(** [if not self.input_model and self.list_functions:
       self.input_model = <attr>(self.list_functions[0])] *)
Definition infer_input_model (attr : pyobj -> result (option Model)) : method unit :=
  fun self =>
    match input_model self, list_functions self with
    | None, first :: _ =>
        match attr first with
        | Return m => (set_input_model self m, Return tt)
        | Raise e => (self, Raise e)
        end
    | _, _ => (self, Return tt)
    end.

(** [if not self.output_model and self.list_functions:
       self.output_model = <attr>(self.list_functions[-1])] *)
Definition infer_output_model (attr : pyobj -> result (option Model)) : method unit :=
  fun self =>
    match output_model self, list_functions self with
    | None, first :: rest =>
        match attr (last rest first) with
        | Return m => (set_output_model self m, Return tt)
        | Raise e => (self, Raise e)
        end
    | _, _ => (self, Return tt)
    end.

Definition infer_models (attr_in attr_out : pyobj -> result (option Model))
  : method unit :=
  fun self =>
    match infer_input_model attr_in self with
    | (self1, Return _) => infer_output_model attr_out self1
    | (self1, Raise e) => (self1, Raise e)
    end.

(** [for f in functions: if not issubclass(f, BaseModule): raise ...
                         self.list_functions.append(f)] *)
Fixpoint modules_loop (functions : list pyobj) : method unit :=
  fun self =>
    match functions with
    | [] => (self, Return tt)
    | f :: rest =>
        match issubclass_BaseModule f with
        | Raise e => (self, Raise e)
        | Return None =>
            (self, Raise (PlainException "The module should be of type BaseModule"))
        | Return (Some _) => modules_loop rest (append_function self f)
        end
    end.

(** [self.modules(functions)] *)
Definition modules (functions : list pyobj) : method unit :=
  fun self =>
    match modules_loop functions self with
    | (self1, Return _) =>
        infer_models (attr_run_annotation "input") (attr_run_annotation "return") self1
    | (self1, Raise e) => (self1, Raise e)
    end.

(** ** Frames of the event stream *)

(** The [data] entry of a frame. *)
Inductive payload : Type :=
| Null                    (* None *)
| JsonOf (v : value)      (* the string v.json() *)
| StrOf (v : value)       (* the string str(v) *)
| Raw (v : value).        (* v itself, left to json.dumps *)

(** One yielded frame, [data: <json>\n\n], by the three entries of its
    JSON object. *)
Record frame : Type := mkFrame {
  message : string;
  status : string;
  data : payload
}.

(** [data.json() if isinstance(data, BaseModel) else str(data)] *)
Definition show (v : value) : payload :=
  if is_BaseModel v then JsonOf v else StrOf v.

Definition not_activated_frame : frame :=
  mkFrame "SSE is not activated in the pipeline" "Exception" Null.

Definition end_frame : frame := mkFrame "" "End" Null.

Definition invalid_module_message : string :=
  "Exception: The function type passed to the pipeline should be an instance of BaseModule".

(** An asynchronous generator, run to its end: the frames it yields, in
    order, and how it stops (exhausted with a value, or by raising into the
    consumer after the frames yielded so far). *)
Definition gen (A : Type) : Type := (list frame * result A)%type.

Definition gret {A : Type} (a : A) : gen A := ([], Return a).
Definition lift {A : Type} (r : result A) : gen A := ([], r).
Definition yield (f : frame) : gen unit := ([f], Return tt).

Definition gbind {A B : Type} (m : gen A) (k : A -> gen B) : gen B :=
  match m with
  | (out, Return a) => let (out', r) := k a in (out ++ out', r)
  | (out, Raise e) => (out, Raise e)
  end.

Notation "x <~ m ;; k" := (gbind m (fun x => k))
  (at level 61, m at next level, right associativity).

(** ** External collaborators *)

(** What the engine takes from outside this file: the pydantic schema
    engine ([validate m kwargs] is the field validation of [m( **kwargs)],
    returning the fields of the new instance; [bases m] are the model
    classes [m] derives from, other than itself) and
    [Function.as_Function], which wraps a raw callable and may raise. *)
Class Environment : Type := {
  validate : Model -> dict -> result dict;
  bases : Model -> list Model;
  as_Function : pyobj -> result Function
}.

Section Engine.

Context {env : Environment}.

(** [m( **kwargs)] for a model class [m]: an instance of exactly [m]. *)
Definition construct (m : Model) (kwargs : dict) : result value :=
  fields <- validate m kwargs ;; Return (VModel m fields).

(** [self.input_model( **kwargs)], [self.output_model( **kwargs)]: the
    attribute is [None] until set or inferred. *)
Definition call_model (m : option Model) (kwargs : dict) : result value :=
  match m with
  | None => Raise NoneType_not_callable
  | Some m => construct m kwargs
  end.

(** [m.parse_obj(kwargs)] *)
Definition parse_obj (m : option Model) (kwargs : dict) : result value :=
  match m with
  | None => Raise (AttributeError "'NoneType' object has no attribute 'parse_obj'")
  | Some m => construct m kwargs
  end.

(** [issubclass(c, m)] on model classes. *)
Definition issubclass_model (c m : Model) : bool :=
  String.eqb c m || existsb (String.eqb m) (bases c).

(** [isinstance(v, m)] where [m] is [self.output_model]. *)
Definition isinstance (v : value) (m : option Model) : result bool :=
  match m with
  | None =>
      Raise (mkExn TypeError
        "isinstance() arg 2 must be a type, a tuple of types, or a union")
  | Some m =>
      Return match v with
             | VModel c _ => issubclass_model c m
             | _ => false
             end
  end.

(** *** Registration *)

(** [f if isinstance(f, Function) else Function.as_Function(f)] *)
Definition wrap (f : pyobj) : result pyobj :=
  if is_Function f then Return f
  else g <- as_Function f ;; Return (OFunction g).

(** [for f in functions: self.list_functions.append(<wrap f>)] *)
Fixpoint functions_loop (functions : list pyobj) : method unit :=
  fun self =>
    match functions with
    | [] => (self, Return tt)
    | f :: rest =>
        match wrap f with
        | Raise e => (self, Raise e)
        | Return g => functions_loop rest (append_function self g)
        end
    end.

(** [self.functions(functions)] *)
Definition functions (functions : list pyobj) : method unit :=
  fun self =>
    match functions_loop functions self with
    | (self1, Return _) => infer_models attr_input_model attr_output_model self1
    | (self1, Raise e) => (self1, Raise e)
    end.

(** *** Compilation *)

(** [for func in self.list_functions: data = call(func)(data)] *)
Fixpoint thread (call : pyobj -> value -> result value)
                (funcs : list pyobj) (data : value) : result value :=
  match funcs with
  | [] => Return data
  | func :: rest => data' <- call func data ;; thread call rest data'
  end.

(** [func.to_function()(data)]: a method of Function instances only. *)
Definition call_to_function (func : pyobj) (data : value) : result value :=
  match func with
  | OFunction f => fn_to_function f data
  | _ => Raise (AttributeError "object has no attribute 'to_function'")
  end.

(** [await func.to_afunction()(data)]; the timing and the [print] around
    it have no effect on the data. *)
Definition call_to_afunction (func : pyobj) (data : value) : result value :=
  match func with
  | OFunction f => fn_to_afunction f data
  | _ => Raise (AttributeError "object has no attribute 'to_afunction'")
  end.

(** [self.output_model( **data.model_dump()) if isinstance(data, BaseModel)
     else data] *)
Definition recoerce (self : Pipeline) (data : value) : result value :=
  if is_BaseModel data
  then kwargs <- model_dump data ;; call_model (output_model self) kwargs
  else Return data.

(** [self.to_function()(input_data)] *)
Definition to_function (self : Pipeline) (input_data : value) : result value :=
  data <- thread call_to_function (list_functions self) input_data ;;
  recoerce self data.

(** [await self.to_afunction()(input_data)] *)
Definition to_afunction (self : Pipeline) (input_data : value) : result value :=
  data <- thread call_to_afunction (list_functions self) input_data ;;
  recoerce self data.

(** *** The error boundary *)

Definition failed (msg : string) : dict :=
  [("status", VStr "failed"); ("result", VNone); ("message", VStr msg)].

Definition success (dump : dict) : dict :=
  [("status", VStr "success");
   ("message", VStr "Pipeline built successfully.");
   ("result", VDict dump)].

Definition mismatch_message : string :=
  "Output schema mismatch. The output did not match the expected model schema.".

(** The third [try] block of [build]. *)
Definition validate_output (self : Pipeline) (output_instance : value)
  : result dict :=
  try_except_Exception
    (b <- isinstance output_instance (output_model self) ;;
     if b : bool
     then dump <- model_dump output_instance ;; Return (success dump)
     else Return (failed mismatch_message))
    (fun e => Return (failed ("Error validating output model: " ++ exn_str e))).

(** The body shared, line for line, by [build] and [abuild]; [compiled] is
    [self.to_function()] in the first and the awaited [self.to_afunction()]
    in the second. *)
Definition build_body (compiled : value -> result value)
                      (self : Pipeline) (input_data : dict) : result dict :=
  try_except_Exception
    (match call_model (input_model self) input_data with
     | Raise e =>
         if is_Exception e
         then Return (failed ("Input data validation error: " ++ exn_str e))
         else Raise e
     | Return input_instance =>
         match compiled input_instance with
         | Raise e =>
             match exn_kind e with
             | TypeError =>
                 Return (failed ("Type error during pipeline execution: " ++ exn_str e))
             | ValueError =>
                 Return (failed ("Value error during pipeline execution: " ++ exn_str e))
             | OtherException =>
                 Return (failed ("Unexpected error during pipeline execution: " ++ exn_str e))
             | BaseOnly => Raise e
             end
         | Return output_instance => validate_output self output_instance
         end
     end)
    (fun e => Return (failed ("An unexpected error occurred: " ++ exn_str e))).

Definition build (self : Pipeline) (input_data : dict) : result dict :=
  build_body (to_function self) self input_data.

Definition abuild (self : Pipeline) (input_data : dict) : result dict :=
  build_body (to_afunction self) self input_data.

(** *** Module iteration *)

(** [self.input_model( **input_data) if isinstance(input_data, dict)
     else self.input_model.parse_obj(input_data.dict())
          if isinstance(input_data, BaseModel) else input_data] *)
Definition to_input (self : Pipeline) (input_data : value) : result value :=
  match input_data with
  | VDict kwargs => call_model (input_model self) kwargs
  | VModel _ fields => parse_obj (input_model self) fields
  | _ => Return input_data
  end.

(** [if isinstance(data, dict):
       data = __module.run.__annotations__['return']( **data)] *)
Definition coerce_output (m : ModuleClass) (out : value) : result value :=
  match out with
  | VDict kwargs =>
      cls <- annotation (run_annotations m) "return" ;; construct cls kwargs
  | _ => Return out
  end.

(** One round of the loop of [sse_generator] on a module class.  Each
    frame is built after the hook was awaited, from [data] as it then is. *)
Definition sse_module (m : ModuleClass) (data : value) : gen value :=
  inst <~ lift (mod_new m) ;;
  started <~ lift (onProgressStartMessage m inst data) ;;
  _ <~ yield (mkFrame (said started) "onProgressStartMessage"
                      (show (data_after started))) ;;
  ran <~ lift (run m (self_after started) (data_after started)) ;;
  data' <~ lift (coerce_output m (fst ran)) ;;
  _ <~ yield (mkFrame "" "onFunctionCompleted" (show data')) ;;
  ended <~ lift (onProgressEndMessage m (snd ran) data') ;;
  _ <~ yield (mkFrame (said ended) "onProgressEndMessage"
                      (show (data_after ended))) ;;
  gret (data_after ended).

(** The [else] branch: [json.dumps] is handed [data] itself. *)
Definition sse_invalid (data : value) : gen value :=
  if json_serializable data
  then _ <~ yield (mkFrame invalid_module_message "Exception" (Raw data)) ;;
       gret data
  else lift (Raise (mkExn TypeError "Object is not JSON serializable")).

(** [for mod in self.list_functions: ...] of [sse_generator] *)
Fixpoint sse_loop (mods : list pyobj) (data : value) : gen value :=
  match mods with
  | [] => gret data
  | module :: rest =>
      is_module <~ lift (issubclass_BaseModule module) ;;
      data' <~ match is_module with
               | Some m => sse_module m data
               | None => sse_invalid data
               end ;;
      sse_loop rest data'
  end.

(** [self.sse_generator(input_data)], drained by its consumer. *)
Definition sse_generator (self : Pipeline) (input_data : value) : gen unit :=
  _ <~ (if sse self then gret tt else yield not_activated_frame) ;;
  data <~ lift (to_input self input_data) ;;
  _ <~ sse_loop (list_functions self) data ;;
  yield end_frame.

(** One round of the loop of [arun_modules] on a module class. *)
Definition run_module (m : ModuleClass) (data : value) : result value :=
  inst <- mod_new m ;;
  ran <- run m inst data ;;
  coerce_output m (fst ran).

(** [for mod in self.list_functions: ...] of [arun_modules] *)
Fixpoint arun_loop (mods : list pyobj) (data : value) : result value :=
  match mods with
  | [] => Return data
  | module :: rest =>
      is_module <- issubclass_BaseModule module ;;
      data' <- match is_module with
               | Some m => run_module m data
               | None => Raise (PlainException "The model should be type of BaseModule")
               end ;;
      arun_loop rest data'
  end.

(** [await self.arun_modules(input_data)] *)
Definition arun_modules (self : Pipeline) (input_data : value) : result value :=
  data <- to_input self input_data ;;
  arun_loop (list_functions self) data.

(** [await self.arun(input_data)] *)
Definition arun (self : Pipeline) (input_data : value) : result value :=
  if sse self
  then arun_modules self input_data
  else input_instance <- to_input self input_data ;;
       to_afunction self input_instance.

(** *** Vocabulary of the properties *)

(** The schema identity of a value: the class it is an instance of. *)
Definition class_of (v : value) : option Model :=
  match v with
  | VModel c _ => Some c
  | _ => None
  end.

(** A structured result: exactly the keys status, result and message, a
    status that is success or failed, and a null result when failed. *)
Definition structured (r : dict) : Prop :=
  exists (st : string) (res : value) (msg : string),
    dict_get r "status" = Some (VStr st) /\
    dict_get r "result" = Some res /\
    dict_get r "message" = Some (VStr msg) /\
    List.length r = 3 /\
    (st = "success" \/ (st = "failed" /\ res = VNone)).

(** Every call made on module class [m] in one round of the streaming loop
    returns, and leaves [data'] as the current data. *)
Definition module_succeeds (m : ModuleClass) (data data' : value) : Prop :=
  exists inst started out s2 rebuilt ended,
    mod_new m = Return inst /\
    onProgressStartMessage m inst data = Return started /\
    run m (self_after started) (data_after started) = Return (out, s2) /\
    coerce_output m out = Return rebuilt /\
    onProgressEndMessage m s2 rebuilt = Return ended /\
    data_after ended = data'.

(** Some call made on module class [m] in one round of the streaming loop
    raises [e], the calls before it in the round having returned: the
    instantiation, the start hook, [run], the rebuild of a mapping that
    [run] returned, or the end hook. *)
Definition module_raises (m : ModuleClass) (data : value) (e : exn) : Prop :=
  mod_new m = Raise e \/
  exists inst,
    mod_new m = Return inst /\
    (onProgressStartMessage m inst data = Raise e \/
     exists started,
       onProgressStartMessage m inst data = Return started /\
       (run m (self_after started) (data_after started) = Raise e \/
        exists out s2,
          run m (self_after started) (data_after started) = Return (out, s2) /\
          (coerce_output m out = Raise e \/
           exists rebuilt,
             coerce_output m out = Return rebuilt /\
             onProgressEndMessage m s2 rebuilt = Raise e))).


(** The message of the handler of the second [try] block of [build] that
    catches [e]. *)
Definition execution_failure (e : exn) : string :=
  match exn_kind e with
  | TypeError => "Type error during pipeline execution: "
  | ValueError => "Value error during pipeline execution: "
  | _ => "Unexpected error during pipeline execution: "
  end ++ exn_str e.

(** [outcome] is what an error boundary around [compiled] answers on
    [input_data], stage by stage: an exception deriving from [Exception]
    becomes a failed result with a null result, whichever stage raised it;
    an exception deriving from [BaseException] only leaves the call; a
    returned value that is no instance of the output schema is a failed
    result too; only an instance of it is a success, with its dump. *)
Definition error_boundary (compiled : value -> result value)
           (outcome : result dict) (self : Pipeline) (input_data : dict) : Prop :=
  (forall e,
      call_model (input_model self) input_data = Raise e ->
      outcome = if is_Exception e
                then Return (failed ("Input data validation error: " ++ exn_str e))
                else Raise e) /\
  (forall inst e,
      call_model (input_model self) input_data = Return inst ->
      compiled inst = Raise e ->
      outcome = if is_Exception e
                then Return (failed (execution_failure e))
                else Raise e) /\
  (forall inst out,
      call_model (input_model self) input_data = Return inst ->
      compiled inst = Return out ->
      match isinstance out (output_model self) with
      | Raise e =>
          outcome = Return (failed ("Error validating output model: " ++ exn_str e))
      | Return false => outcome = Return (failed mismatch_message)
      | Return true =>
          exists dump, model_dump out = Return dump /\
                       outcome = Return (success dump)
      end).

(** The all-success path through the module classes [ms] from [data]. *)
Fixpoint all_succeed (ms : list ModuleClass) (data : value) : Prop :=
  match ms with
  | [] => True
  | m :: rest =>
      exists data', module_succeeds m data data' /\ all_succeed rest data'
  end.

(** The frames the loop of [sse_generator] can yield: the three frames of
    a module class, or the report of a class that is not one. *)
Definition loop_frame (f : frame) : Prop :=
  status f = "onProgressStartMessage" \/
  status f = "onFunctionCompleted" \/
  status f = "onProgressEndMessage" \/
  (status f = "Exception" /\ message f = invalid_module_message).

(** The statuses of the frames of one module class, in order. *)
Definition module_statuses : list string :=
  ["onProgressStartMessage"; "onFunctionCompleted"; "onProgressEndMessage"].

(** The frame that says streaming is not activated. *)
Definition is_not_activated (f : frame) : bool :=
  String.eqb (status f) "Exception" &&
  String.eqb (message f) "SSE is not activated in the pipeline".

(** *** Schema descriptors *)

(** [self.get_input_schema()] and [self.get_output_schema()]: the call
    [self.input_model.schema()], where [schema] is what pydantic answers
    for a model class; the attribute is [None] until set or inferred. *)
Definition get_input_schema (schema : Model -> dict) (self : Pipeline)
  : result dict :=
  match input_model self with
  | None => Raise (AttributeError "'NoneType' object has no attribute 'schema'")
  | Some m => Return (schema m)
  end.

Definition get_output_schema (schema : Model -> dict) (self : Pipeline)
  : result dict :=
  match output_model self with
  | None => Raise (AttributeError "'NoneType' object has no attribute 'schema'")
  | Some m => Return (schema m)
  end.

(** *** Further vocabulary *)

(** A class deriving from BaseModule. *)
Definition is_module_class (o : pyobj) : bool :=
  match o with
  | OModule _ => true
  | _ => false
  end.

(** The values of the [status] entry of a frame. *)
Definition frame_statuses : list string :=
  ["onProgressStartMessage"; "onFunctionCompleted"; "onProgressEndMessage";
   "End"; "Exception"].

(** The openings of the messages of a failed result. *)
Definition failure_openings : list string :=
  ["Input data validation error: ";
   "Type error during pipeline execution: ";
   "Value error during pipeline execution: ";
   "Unexpected error during pipeline execution: ";
   "Output schema mismatch.";
   "Error validating output model: "].


(** What [issubclass] or the [else] branch raises on a step that is not a
    module class; [otherwise] is the message of the [else] branch. *)
Definition not_a_module_error (otherwise : string) (o : pyobj) : exn :=
  match issubclass_BaseModule o with
  | Raise e => e
  | Return _ => PlainException otherwise
  end.

End Engine.

(** ** Sample objects *)

Module Examples.

(** Three model classes: [X] and [Y] both declare one integer field [x],
    [Text] declares one string field [s]. *)
Definition validate0 (m : Model) (kwargs : dict) : result dict :=
  if String.eqb m "Text"
  then match dict_get kwargs "s" with
       | Some (VStr s) => Return [("s", VStr s)]
       | _ => Raise (mkExn ValueError "1 validation error for Text")
       end
  else match dict_get kwargs "x" with
       | Some (VInt n) => Return [("x", VInt n)]
       | _ => Raise (mkExn ValueError ("1 validation error for " ++ m))
       end.

(** A step on the field [x], returning an instance of [cls]. *)
Definition on_x (f : nat -> nat) (cls : Model) (v : value) : result value :=
  match v with
  | VModel _ fields =>
      match dict_get fields "x" with
      | Some (VInt n) => Return (VModel cls [("x", VInt (f n))])
      | _ => Raise (AttributeError "object has no attribute 'x'")
      end
  | _ => Raise (AttributeError "object has no attribute 'x'")
  end.

Definition addOne : Function :=
  mkFunction "addOne" "" (Some "X") (Some "X") (on_x S "X") (on_x S "X").

Definition double : Function :=
  mkFunction "double" "" (Some "X") (Some "X")
             (on_x (fun n => 2 * n) "X") (on_x (fun n => 2 * n) "X").

(** Returns an instance of [Y], a class distinct from [X] with the same
    fields. *)
Definition toY : Function :=
  mkFunction "toY" "" (Some "X") (Some "Y")
             (on_x (fun n => n) "Y") (on_x (fun n => n) "Y").

(** Returns a plain integer, not a model instance. *)
Definition bare : Function :=
  mkFunction "bare" "" (Some "X") (Some "X")
             (fun _ => Return (VInt 7)) (fun _ => Return (VInt 7)).

(** Raises a value-level fault. *)
Definition rejects : Function :=
  mkFunction "rejects" "" (Some "X") (Some "X")
             (fun _ => Raise (mkExn ValueError "x must be positive"))
             (fun _ => Raise (mkExn ValueError "x must be positive")).

(** Calls [sys.exit()]: SystemExit derives from BaseException only. *)
Definition exits : Function :=
  mkFunction "exits" "" (Some "X") (Some "X")
             (fun _ => Raise (mkExn BaseOnly "SystemExit"))
             (fun _ => Raise (mkExn BaseOnly "SystemExit")).

Definition env0 : Environment := {|
  validate := validate0;
  bases := fun _ => [];
  as_Function := fun o =>
    match o with
    | OCallable n =>
        if String.eqb n "addOne" then Return addOne
        else Raise (PlainException "Cannot infer the schema of the callable")
    | _ => Raise (PlainException "Cannot infer the schema of the callable")
    end
|}.

(** [run] of the sample module classes: one more in the field [x], as a
    plain mapping. *)
Definition on_x_run {St : Type} (v : value) (s : St) : result (value * St) :=
  match v with
  | VModel _ fields =>
      match dict_get fields "x" with
      | Some (VInt n) => Return (VDict [("x", VInt (S n))], s)
      | _ => Raise (AttributeError "object has no attribute 'x'")
      end
  | _ => Raise (AttributeError "object has no attribute 'x'")
  end.

(** A module class whose instances count their calls; [run] returns a
    plain mapping, rebuilt as [X] by the loop. *)
Definition Incr : ModuleClass :=
  mkModule "Incr" (Return 0)
    (fun calls v => Return (mkHooked "Incrementing" (S calls) v))
    (fun calls v =>
       match v with
       | VModel _ fields =>
           match dict_get fields "x" with
           | Some (VInt n) => Return (VDict [("x", VInt (S n))], S calls)
           | _ => Raise (AttributeError "object has no attribute 'x'")
           end
       | _ => Raise (AttributeError "object has no attribute 'x'")
       end)
    [("input", "X"); ("return", "X")]
    (fun calls v => Return (mkHooked "Incremented" (S calls) v)).

(** A module class whose [run] raises. *)
Definition Failing : ModuleClass :=
  mkModule "Failing" (Return tt)
    (fun s v => Return (mkHooked "Starting" s v))
    (fun _ _ => Raise (mkExn ValueError "cannot process"))
    [("input", "X"); ("return", "X")]
    (fun s v => Return (mkHooked "Finished" s v)).

Definition fresh (sse : bool) : Pipeline := init "example_pipeline" None sse "uuid".

Definition x_is (n : nat) : dict := [("x", VInt n)].

(** [Pipeline.init(..).functions([addOne, double])], [addOne] given as a
    plain callable. *)
Definition two_steps : Pipeline :=
  fst (functions (env := env0) [OCallable "addOne"; OFunction double] (fresh false)).

(** [Pipeline.init(..).functions([addOne]).functions([toY])] *)
Definition two_calls : Pipeline :=
  fst (functions (env := env0) [OFunction toY]
         (fst (functions (env := env0) [OFunction addOne] (fresh false)))).

(** [Pipeline.init(..).output(X).functions([toY])] *)
Definition relabelled : Pipeline :=
  fst (functions (env := env0) [OFunction toY] (output "X" (fresh false))).

(** [Pipeline.init(..).functions([addOne, exits])] *)
Definition exiting : Pipeline :=
  fst (functions (env := env0) [OFunction addOne; OFunction exits] (fresh false)).

(** [Pipeline.init(..).functions([addOne, rejects])] *)
Definition rejecting : Pipeline :=
  fst (functions (env := env0) [OFunction addOne; OFunction rejects] (fresh false)).

(** [Pipeline.init(..).input(X).output(X)], no step registered. *)
Definition no_steps : Pipeline := output "X" (input "X" (fresh false)).

(** [Pipeline.init(.., sse=True).modules([Incr, Incr])] *)
Definition counting : Pipeline :=
  fst (modules [OModule Incr; OModule Incr] (fresh true)).

(** [Pipeline.init(.., sse=False).modules([Incr])] *)
Definition counting_plain : Pipeline :=
  fst (modules [OModule Incr] (fresh false)).

(** [Pipeline.init(.., sse=True).modules([Incr, Failing])] *)
Definition failing_stream : Pipeline :=
  fst (modules [OModule Incr; OModule Failing] (fresh true)).

(** [Pipeline.init(.., sse=True).functions([addOne])]: Function steps on
    a pipeline flagged for streaming. *)
Definition functions_on_stream : Pipeline :=
  fst (functions (env := env0) [OFunction addOne] (fresh true)).

(** A module class whose [run] names its parameter [data], not [input]. *)
Definition Renamed : ModuleClass :=
  mkModule "Renamed" (Return tt)
    (fun s v => Return (mkHooked "Starting" s v))
    (fun s v => Return (v, s))
    [("data", "X"); ("return", "X")]
    (fun s v => Return (mkHooked "Finished" s v)).

(** A module class whose start hook sets the field [x] of the object it is
    handed to zero before [run] adds one to it. *)
Definition Resetting : ModuleClass :=
  mkModule "Resetting" (Return tt)
    (fun s _ => Return (mkHooked "Resetting" s (VModel "X" [("x", VInt 0)])))
    (fun s v => on_x_run v s)
    [("input", "X"); ("return", "X")]
    (fun s v => Return (mkHooked "Finished" s v)).

(** [Pipeline.init(.., sse=True).modules([Resetting])] *)
Definition resetting : Pipeline :=
  fst (modules [OModule Resetting] (fresh true)).

(** A pipeline whose step list was given a class that is no module class. *)
Definition with_plain_class : Pipeline :=
  mkPipeline "example_pipeline" "uuid" true (Some "X") (Some "X") [OClass "str"].

(** [Pipeline.init(.., sse=True).modules([Incr])] with a second step that is
    a Function instance. *)
Definition module_then_function : Pipeline :=
  mkPipeline "example_pipeline" "uuid" true (Some "X") (Some "X")
             [OModule Incr; OFunction addOne; OModule Incr].

(** What pydantic answers for [m.schema()]: the title is enough here. *)
Definition schema0 (m : Model) : dict := [("title", VStr m)].

End Examples.

(** * Properties *)

Section Properties.

Context {env : Environment}.

(** ** Registration *)

Lemma extend_nil (self : Pipeline) : extend self [] = self.
Proof.
  destruct self; unfold extend; simpl. now rewrite app_nil_r.
Qed.

Lemma extend_append (self : Pipeline) (o : pyobj) (objs : list pyobj) :
  extend (append_function self o) objs = extend self (o :: objs).
Proof.
  unfold extend, append_function; simpl. now rewrite <- app_assoc.
Qed.

Lemma last_map {A B : Type} (f : A -> B) (l : list A) (d : A) :
  last (map f l) (f d) = f (last l d).
Proof.
  induction l as [|a l IH]; simpl; [reflexivity|].
  destruct l as [|b l]; simpl in *; [reflexivity|exact IH].
Qed.

Lemma functions_loop_wrapped (units : list pyobj) (fs : list Function) :
  Forall2 (fun o f => wrap o = Return (OFunction f)) units fs ->
  forall self,
    functions_loop units self = (extend self (map OFunction fs), Return tt).
Proof.
  induction 1 as [|o f units fs Hw _ IH]; intros self; simpl.
  - now rewrite extend_nil.
  - rewrite Hw, IH. now rewrite extend_append.
Qed.

Lemma modules_loop_classes (ms : list ModuleClass) :
  forall self,
    modules_loop (map OModule ms) self = (extend self (map OModule ms), Return tt).
Proof.
  induction ms as [|m ms IH]; intros self; simpl.
  - now rewrite extend_nil.
  - rewrite IH. now rewrite extend_append.
Qed.

(** The loop of [modules] stops at the first unit that is not a module
    class, with the units before it appended. *)
Lemma modules_loop_stops (ms : list ModuleClass) (bad : pyobj) (post : list pyobj) :
  (forall m, bad <> OModule m) ->
  forall self,
    modules_loop (map OModule ms ++ bad :: post) self =
    (extend self (map OModule ms),
     Raise match issubclass_BaseModule bad with
           | Raise e => e
           | Return _ => PlainException "The module should be of type BaseModule"
           end).
Proof.
  intros Hbad. induction ms as [|m ms IH]; intros self; simpl.
  - rewrite extend_nil.
    destruct bad as [f|m|n|n]; simpl; try reflexivity.
    now contradiction (Hbad m).
  - rewrite IH. now rewrite extend_append.
Qed.

(** Splitting a list of units at its first unit that is not a module
    class. *)
Lemma first_offending_unit (units : list pyobj) :
  Exists (fun o => forall m, o <> OModule m) units ->
  exists (ms : list ModuleClass) (bad : pyobj) (post : list pyobj),
    units = map OModule ms ++ bad :: post /\ (forall m, bad <> OModule m).
Proof.
  induction units as [|o units IH]; intros Hex.
  - inversion Hex.
  - destruct o as [f|m|n|n].
    + exists [], (OFunction f), units. split; [reflexivity|discriminate].
    + assert (Hrest : Exists (fun o => forall m, o <> OModule m) units).
      { inversion Hex as [? ? Hm|? ? Hr]; subst; [|exact Hr].
        now contradiction (Hm m). }
      destruct (IH Hrest) as (ms & bad & post & -> & Hbad).
      exists (m :: ms), bad, post. split; [reflexivity|exact Hbad].
    + exists [], (OClass n), units. split; [reflexivity|discriminate].
    + exists [], (OCallable n), units. split; [reflexivity|discriminate].
Qed.

(** C10. [modules] is not atomic on error: on a list that holds a unit
    which is not a class deriving from BaseModule, the call raises at the
    first such unit; the units before it are appended to the step list and
    stay there, and neither schema is inferred. *)
Theorem modules_partial_on_error (self : Pipeline) (units : list pyobj) :
  Exists (fun o => forall m, o <> OModule m) units ->
  exists (ms : list ModuleClass) (bad : pyobj) (post : list pyobj)
         (self' : Pipeline) (e : exn),
    units = map OModule ms ++ bad :: post /\
    (forall m, bad <> OModule m) /\
    modules units self = (self', Raise e) /\
    list_functions self' = list_functions self ++ map OModule ms /\
    input_model self' = input_model self /\
    output_model self' = output_model self.
Proof.
  intros Hex.
  destruct (first_offending_unit Hex) as (ms & bad & post & -> & Hbad).
  exists ms, bad, post, (extend self (map OModule ms)).
  eexists. split; [reflexivity|]. split; [exact Hbad|].
  unfold modules. rewrite (modules_loop_stops ms post Hbad).
  repeat split.
Qed.

(** C3, as the code has it.  On a definition with no schema set and no
    step registered yet, registering a non-empty list of units resolves the
    input schema to the first step's input schema and the output schema to
    the last step's output schema, through [functions] (every unit being a
    Function or wrapped into one) and through [modules] (the first and last
    module classes annotating [run]). *)
Theorem schemas_inferred_from_first_and_last (self : Pipeline) :
  input_model self = None ->
  output_model self = None ->
  list_functions self = [] ->
  (forall (units : list pyobj) (f : Function) (fs : list Function),
      Forall2 (fun o g => wrap o = Return (OFunction g)) units (f :: fs) ->
      exists self',
        functions units self = (self', Return tt) /\
        list_functions self' = map OFunction (f :: fs) /\
        input_model self' = fn_input_model f /\
        output_model self' = fn_output_model (last fs f))
  /\
  (forall (m : ModuleClass) (ms : list ModuleClass) (a b : Model),
      annotation (run_annotations m) "input" = Return a ->
      annotation (run_annotations (last ms m)) "return" = Return b ->
      exists self',
        modules (map OModule (m :: ms)) self = (self', Return tt) /\
        list_functions self' = map OModule (m :: ms) /\
        input_model self' = Some a /\
        output_model self' = Some b).
Proof.
  intros Hin Hout Hnil. split.
  - intros units f fs Hw.
    unfold functions. rewrite (functions_loop_wrapped Hw).
    unfold infer_models, infer_input_model, infer_output_model, extend.
    simpl. rewrite Hin, Hout, Hnil. simpl.
    rewrite (last_map OFunction fs f). simpl.
    eexists. split; [reflexivity|]. simpl. auto.
  - intros m ms a b Ha Hb.
    unfold modules. rewrite (modules_loop_classes (m :: ms)).
    unfold infer_models, infer_input_model, infer_output_model, extend.
    simpl. rewrite Hin, Hout, Hnil. simpl. rewrite Ha. simpl.
    rewrite (last_map OModule ms m). simpl. rewrite Hb. simpl.
    eexists. split; [reflexivity|]. simpl. auto.
Qed.

Lemma functions_loop_models (units : list pyobj) :
  forall self self' r,
    functions_loop units self = (self', r) ->
    input_model self' = input_model self /\
    output_model self' = output_model self.
Proof.
  induction units as [|o units IH]; intros self self' r; simpl.
  - intros [= <- _]. auto.
  - destruct (wrap o) as [g|e].
    + intros H. apply IH in H. exact H.
    + intros [= <- _]. auto.
Qed.

Lemma modules_loop_models (units : list pyobj) :
  forall self self' r,
    modules_loop units self = (self', r) ->
    input_model self' = input_model self /\
    output_model self' = output_model self.
Proof.
  induction units as [|o units IH]; intros self self' r; simpl.
  - intros [= <- _]. auto.
  - destruct (issubclass_BaseModule o) as [[m|]|e].
    + intros H. apply IH in H. exact H.
    + intros [= <- _]. auto.
    + intros [= <- _]. auto.
Qed.

(** Inference leaves a schema that is set as it is. *)
Lemma infer_models_keeps (attr_in attr_out : pyobj -> result (option Model))
      (self self' : Pipeline) (r : result unit) :
  infer_models attr_in attr_out self = (self', r) ->
  (forall m, input_model self = Some m -> input_model self' = Some m) /\
  (forall m, output_model self = Some m -> output_model self' = Some m).
Proof.
  unfold infer_models, infer_input_model, infer_output_model.
  destruct self as [n i s im om l]; simpl.
  destruct im as [a|], om as [b|], l as [|first rest]; simpl;
    repeat match goal with
           | |- context [match ?x with Return _ => _ | Raise _ => _ end] =>
               destruct x; simpl
           end;
    intros [= <- _]; simpl; split; intros m' [=]; subst; reflexivity.
Qed.

Lemma functions_keeps (units : list pyobj) (self self' : Pipeline) (r : result unit) :
  functions units self = (self', r) ->
  (forall m, input_model self = Some m -> input_model self' = Some m) /\
  (forall m, output_model self = Some m -> output_model self' = Some m).
Proof.
  unfold functions.
  destruct (functions_loop units self) as [self1 r1] eqn:Hloop.
  destruct (functions_loop_models _ _ Hloop) as [Hi Ho].
  destruct r1 as [[]|e].
  - intros H. apply infer_models_keeps in H. rewrite Hi, Ho in H. exact H.
  - intros [= <- _]. rewrite Hi, Ho. auto.
Qed.

Lemma modules_keeps (units : list pyobj) (self self' : Pipeline) (r : result unit) :
  modules units self = (self', r) ->
  (forall m, input_model self = Some m -> input_model self' = Some m) /\
  (forall m, output_model self = Some m -> output_model self' = Some m).
Proof.
  unfold modules.
  destruct (modules_loop units self) as [self1 r1] eqn:Hloop.
  destruct (modules_loop_models _ _ Hloop) as [Hi Ho].
  destruct r1 as [[]|e].
  - intros H. apply infer_models_keeps in H. rewrite Hi, Ho in H. exact H.
  - intros [= <- _]. rewrite Hi, Ho. auto.
Qed.

(** C7, as the code has it.  Registration never replaces a schema that is
    already set, whether the registration returns or raises; the two
    setters assign unconditionally, whatever was set or inferred before,
    and touch nothing else. *)
Theorem setters_overwrite_registration_keeps (self : Pipeline) (m : Model) :
  (input_model (input m self) = Some m /\
   output_model (input m self) = output_model self /\
   list_functions (input m self) = list_functions self) /\
  (output_model (output m self) = Some m /\
   input_model (output m self) = input_model self /\
   list_functions (output m self) = list_functions self) /\
  (forall units self' r,
      functions units self = (self', r) \/ modules units self = (self', r) ->
      (input_model self = Some m -> input_model self' = Some m) /\
      (output_model self = Some m -> output_model self' = Some m)).
Proof.
  repeat split; try reflexivity.
  - destruct H as [H|H];
      [apply functions_keeps in H|apply modules_keeps in H]; apply H.
  - destruct H as [H|H];
      [apply functions_keeps in H|apply modules_keeps in H]; apply H.
Qed.

(** ** The error boundary *)

Lemma structured_failed (msg : string) : structured (failed msg).
Proof.
  exists "failed", VNone, msg. cbn. repeat split. right. split; reflexivity.
Qed.

Lemma structured_success (dump : dict) : structured (success dump).
Proof.
  exists "success", (VDict dump), "Pipeline built successfully.".
  cbn. repeat split. left. reflexivity.
Qed.

Lemma validate_output_returns (self : Pipeline) (out : value) :
  match validate_output self out with
  | Return r => (exists msg, r = failed msg) \/ (exists dump, r = success dump)
  | Raise e => False
  end.
Proof.
  unfold validate_output, isinstance.
  destruct (output_model self) as [b|]; simpl.
  - destruct out as [ |vb|vn|vs|vl|vd|c0 out0]; simpl;
      try (left; eexists; reflexivity).
    destruct (issubclass_model c0 b); simpl.
    + right; eexists; reflexivity.
    + left; eexists; reflexivity.
  - left; eexists; reflexivity.
Qed.

(** What leaves the body of [build] and [abuild]: one of the two shapes of
    structured result, or an exception that no [except Exception] clause
    matches. *)
Lemma build_body_cases (compiled : value -> result value)
      (self : Pipeline) (input_data : dict) :
  match build_body compiled self input_data with
  | Return r => (exists msg, r = failed msg) \/ (exists dump, r = success dump)
  | Raise e => exn_kind e = BaseOnly
  end.
Proof.
  unfold build_body.
  destruct (call_model (input_model self) input_data) as [inst|e]; simpl.
  - destruct (compiled inst) as [out|e]; simpl.
    + pose proof (validate_output_returns self out) as H.
      destruct (validate_output self out) as [r|e]; simpl; [exact H|destruct H].
    + destruct e as [[] msg]; simpl; try (left; eexists; reflexivity).
      reflexivity.
  - destruct e as [[] msg]; simpl; try (left; eexists; reflexivity).
    reflexivity.
Qed.

Lemma build_body_boundary (compiled : value -> result value)
      (self : Pipeline) (input_data : dict) :
  error_boundary compiled (build_body compiled self input_data) self input_data.
Proof.
  unfold error_boundary, build_body. split; [|split].
  - intros e ->. destruct e as [[] msg]; reflexivity.
  - intros inst e -> ->. destruct e as [[] msg]; reflexivity.
  - intros inst out -> ->. unfold validate_output, isinstance.
    destruct (output_model self) as [b|]; [|reflexivity].
    destruct out as [ |vb|vn|vs|vl|vd|c fields]; try reflexivity.
    simpl. destruct (issubclass_model c b); simpl; [|reflexivity].
    eexists. split; reflexivity.
Qed.

(** C2, as the code has it.  [build] and [abuild] are error boundaries for
    the exceptions that derive from [Exception].  Whichever stage raises
    one (building the input instance, running the compiled pipeline,
    testing the output), the call returns the failed result of that stage,
    with a null result; a returned value that is no instance of the output
    schema gives a failed result as well, and only an instance of it gives
    a success.  An exception that derives from [BaseException] only is not
    caught: it leaves the call.  So a call either returns a structured
    mapping (keys status, result and message; a failed status comes with a
    null result) or re-raises an exception of that last kind. *)
Theorem build_catches_every_Exception (self : Pipeline) (input_data : dict) :
  (match build self input_data with
   | Return r => structured r
   | Raise e => is_Exception e = false
   end /\
   match abuild self input_data with
   | Return r => structured r
   | Raise e => is_Exception e = false
   end) /\
  error_boundary (to_function self) (build self input_data) self input_data /\
  error_boundary (to_afunction self) (abuild self input_data) self input_data.
Proof.
  split; [|split; apply build_body_boundary].
  unfold build, abuild, is_Exception. split.
  - pose proof (build_body_cases (to_function self) self input_data) as H.
    destruct (build_body (to_function self) self input_data) as [r|e].
    + destruct H as [[msg ->]|[dump ->]];
        [apply structured_failed|apply structured_success].
    + now rewrite H.
  - pose proof (build_body_cases (to_afunction self) self input_data) as H.
    destruct (build_body (to_afunction self) self input_data) as [r|e].
    + destruct H as [[msg ->]|[dump ->]];
        [apply structured_failed|apply structured_success].
    + now rewrite H.
Qed.

Lemma issubclass_model_refl (m : Model) : issubclass_model m m = true.
Proof.
  unfold issubclass_model. now rewrite String.eqb_refl.
Qed.

(** [build] on an input that validates, by the outcome of the steps. *)
Lemma build_on_valid_input (self : Pipeline) (input_data : dict)
      (a : Model) (fields : dict) :
  input_model self = Some a ->
  validate a input_data = Return fields ->
  build self input_data =
  match thread call_to_function (list_functions self) (VModel a fields) with
  | Raise e =>
      match exn_kind e with
      | TypeError =>
          Return (failed ("Type error during pipeline execution: " ++ exn_str e))
      | ValueError =>
          Return (failed ("Value error during pipeline execution: " ++ exn_str e))
      | OtherException =>
          Return (failed ("Unexpected error during pipeline execution: " ++ exn_str e))
      | BaseOnly => Raise e
      end
  | Return (VModel c out) =>
      match output_model self with
      | None =>
          Return (failed ("Type error during pipeline execution: "
                          ++ exn_str NoneType_not_callable))
      | Some b =>
          match validate b out with
          | Return dump => Return (success dump)
          | Raise e =>
              match exn_kind e with
              | TypeError =>
                  Return (failed ("Type error during pipeline execution: " ++ exn_str e))
              | ValueError =>
                  Return (failed ("Value error during pipeline execution: " ++ exn_str e))
              | OtherException =>
                  Return (failed ("Unexpected error during pipeline execution: " ++ exn_str e))
              | BaseOnly => Raise e
              end
          end
      end
  | Return _ =>
      match output_model self with
      | None =>
          Return (failed ("Error validating output model: "
                          ++ "isinstance() arg 2 must be a type, a tuple of types, or a union"))
      | Some _ => Return (failed mismatch_message)
      end
  end.
Proof.
  intros Hin Hval.
  unfold build, build_body, to_function, call_model, construct.
  rewrite Hin. simpl. rewrite Hval. simpl.
  destruct (thread call_to_function (list_functions self) (VModel a fields))
    as [v|e]; simpl.
  - unfold recoerce, validate_output, isinstance, call_model, construct.
    destruct v as [ |vb|vn|vs|vl|vd|c0 out0]; simpl;
      try (destruct (output_model self); reflexivity).
    destruct (output_model self) as [om|]; simpl; [|reflexivity].
    destruct (validate om out0) as [dump|e]; simpl.
    + rewrite issubclass_model_refl. reflexivity.
    + destruct e as [[] msg]; reflexivity.
  - destruct e as [[] msg]; reflexivity.
Qed.

Lemma success_not_failed (dump : dict) (msg : string) : success dump <> failed msg.
Proof. discriminate. Qed.

Ltac other_message :=
  unfold failed, mismatch_message; simpl; intros [=].

(** C1, as the code has it.  On an input that validates against the input
    schema, [build] returns a success exactly when every step returns, the
    value the last step leaves is an instance of some schema (whichever),
    and the declared output schema accepts its dumped fields; the result is
    then the dump of the instance rebuilt as the output schema.  The
    message Output schema mismatch is returned exactly when every step
    returns and the value left is not a schema instance at all. *)
Theorem build_success_iff_output_rebuilt (self : Pipeline) (input_data : dict)
        (a : Model) (fields : dict) :
  input_model self = Some a ->
  validate a input_data = Return fields ->
  (forall dump,
      build self input_data = Return (success dump) <->
      exists c out b,
        thread call_to_function (list_functions self) (VModel a fields)
        = Return (VModel c out) /\
        output_model self = Some b /\
        validate b out = Return dump) /\
  (forall r,
      build self input_data = Return r ->
      dict_get r "status" = Some (VStr "success") ->
      exists dump, r = success dump /\ dict_get r "result" = Some (VDict dump)) /\
  (build self input_data = Return (failed mismatch_message) <->
   exists v b,
     thread call_to_function (list_functions self) (VModel a fields) = Return v /\
     is_BaseModel v = false /\
     output_model self = Some b).
Proof.
  intros Hin Hval. split; [|split].
  - intros dump. rewrite (build_on_valid_input _ _ Hin Hval).
    destruct (thread call_to_function (list_functions self) (VModel a fields))
      as [v|e].
    + destruct v as [ |vb|vn|vs|vl|vd|c0 out0];
        destruct (output_model self) as [om|];
        try (split; [intros [=]|intros (c & out & b' & [=] & _)]; fail);
        try (split; [intros [=]|intros (c & out & b' & _ & [=] & _)]; fail).
      destruct (validate om out0) as [dump'|e] eqn:Hv.
      * split.
        -- intros [= <-]. exists c0, out0, om. auto.
        -- intros (c & out & b' & [= <- <-] & [= <-] & Hd).
           rewrite Hv in Hd. now injection Hd as ->.
      * split.
        -- destruct e as [[] msg]; simpl; intros [=].
        -- intros (c & out & b' & [= <- <-] & [= <-] & Hd).
           rewrite Hv in Hd. discriminate.
    + split; [destruct e as [[] msg]; simpl; intros [=]
             |intros (c & out & b' & [=] & _)].
  - intros r Hr Hst.
    pose proof (build_body_cases (to_function self) self input_data) as H.
    unfold build in Hr. rewrite Hr in H.
    destruct H as [[msg ->]|[dump ->]].
    + cbn in Hst. discriminate.
    + exists dump. split; reflexivity.
  - rewrite (build_on_valid_input _ _ Hin Hval).
    destruct (thread call_to_function (list_functions self) (VModel a fields))
      as [v|e].
    + destruct v as [ |vb|vn|vs|vl|vd|c0 out0];
        destruct (output_model self) as [om|];
        try (split; [intros _; eexists; eexists; repeat split; reflexivity
                    |reflexivity]; fail);
        try (split; [other_message|intros (v' & b' & _ & _ & [=])]; fail).
      * split; [|intros (v' & b' & [= <-] & [=] & _)].
        destruct (validate om out0) as [dump'|e];
          [|destruct e as [[] msg]]; other_message.
    + split; [destruct e as [[] msg]; other_message
             |intros (v' & b' & [=] & _)].
Qed.

(** A fault of the value kind can only come from a Function step. *)
Lemma value_fault_from_Function (funcs : list pyobj) (v : value) (e : exn) :
  thread call_to_function funcs v = Raise e ->
  exn_kind e = ValueError ->
  exists f rest, funcs = OFunction f :: rest.
Proof.
  destruct funcs as [|[f|m|n|n] rest]; simpl; try discriminate.
  - eauto.
  - intros [= <-]; discriminate.
  - intros [= <-]; discriminate.
  - intros [= <-]; discriminate.
Qed.

(** C8. When a step raises a value-level fault on valid input, [build]
    returns a failed result with a null result and a message tagged as a
    value error; [arun] on the same pipeline and input catches nothing: the
    fault raised by the steps' suspend-capable forms reaches the caller (and
    on a pipeline flagged for streaming, where [arun] hands over to the
    module iteration, the call raises as well). *)
Theorem value_fault_caught_by_build_raised_by_arun
        (self : Pipeline) (input_data : dict) (a : Model) (fields : dict)
        (e : exn) :
  input_model self = Some a ->
  validate a input_data = Return fields ->
  exn_kind e = ValueError ->
  thread call_to_function (list_functions self) (VModel a fields) = Raise e ->
  thread call_to_afunction (list_functions self) (VModel a fields) = Raise e ->
  build self input_data
  = Return [("status", VStr "failed"); ("result", VNone);
            ("message", VStr ("Value error during pipeline execution: " ++ exn_str e))] /\
  (sse self = false -> arun self (VDict input_data) = Raise e) /\
  (exists e', arun self (VDict input_data) = Raise e').
Proof.
  intros Hin Hval Hkind Hsync Hasync.
  assert (Hplain : sse self = false -> arun self (VDict input_data) = Raise e).
  { intros Hsse. unfold arun, to_input, call_model, construct, to_afunction.
    rewrite Hsse, Hin. simpl. rewrite Hval. simpl. now rewrite Hasync. }
  split; [|split].
  - rewrite (build_on_valid_input _ _ Hin Hval), Hsync, Hkind. reflexivity.
  - exact Hplain.
  - destruct (sse self) eqn:Hsse.
    + destruct (value_fault_from_Function _ _ Hsync Hkind) as (f & rest & Hl).
      unfold arun, arun_modules, to_input, call_model, construct.
      rewrite Hsse, Hin, Hl. simpl. rewrite Hval. simpl. eauto.
    + exists e. now apply Hplain.
Qed.

(** C9, as the code has it.  Registering an empty list never changes the
    step list, and changes nothing at all on a definition without steps.
    No entry point checks for an empty step list: with zero steps [build]
    fails with the input validation message of a call on None when no input
    schema is set, and succeeds with the input rebuilt as the output schema
    when both schemas are set and accept it; the streaming generator yields
    the terminal End frame alone (after the warning frame when streaming is
    not activated) once the input is converted. *)
Theorem empty_registration_and_zero_steps (self : Pipeline) :
  (list_functions (fst (functions [] self)) = list_functions self /\
   list_functions (fst (modules [] self)) = list_functions self) /\
  (list_functions self = [] ->
   functions [] self = (self, Return tt) /\
   modules [] self = (self, Return tt)) /\
  (list_functions self = [] ->
   (input_model self = None ->
    forall input_data,
      build self input_data
      = Return (failed "Input data validation error: 'NoneType' object is not callable")) /\
   (forall a b input_data fields dump,
       input_model self = Some a ->
       output_model self = Some b ->
       validate a input_data = Return fields ->
       validate b fields = Return dump ->
       build self input_data = Return (success dump))) /\
  (list_functions self = [] ->
   forall input_data data0,
     to_input self input_data = Return data0 ->
     sse_generator self input_data
     = ((if sse self then [] else [not_activated_frame]) ++ [end_frame], Return tt)).
Proof.
  split; [|split; [|split]].
  - unfold functions, modules, infer_models, infer_input_model,
      infer_output_model; simpl.
    destruct self as [n i s im om l]; simpl.
    split; destruct im, om, l; simpl;
      repeat match goal with
             | |- context [match ?x with Return _ => _ | Raise _ => _ end] =>
                 destruct x; simpl
             end; reflexivity.
  - intros Hnil.
    unfold functions, modules, infer_models, infer_input_model,
      infer_output_model; simpl.
    rewrite Hnil. destruct (input_model self), (output_model self);
      simpl; rewrite ?Hnil; auto.
  - intros Hnil. split.
    + intros Hin input_data.
      unfold build, build_body, call_model. rewrite Hin. reflexivity.
    + intros a b input_data fields dump Hin Hout Ha Hb.
      rewrite (build_on_valid_input _ _ Hin Ha), Hnil. simpl.
      now rewrite Hout, Hb.
  - intros Hnil input_data data0 Hconv.
    unfold sse_generator. rewrite Hnil, Hconv.
    destruct (sse self); reflexivity.
Qed.

(** ** The event stream *)

Lemma gbind_fst {A B : Type} (m : gen A) (k : A -> gen B) :
  fst (gbind m k)
  = fst m ++ match snd m with
             | Return x => fst (k x)
             | Raise _ => []
             end.
Proof.
  destruct m as [out [x|e]]; simpl.
  - destruct (k x); reflexivity.
  - now rewrite app_nil_r.
Qed.

Lemma gbind_snd {A B : Type} (m : gen A) (k : A -> gen B) :
  snd (gbind m k)
  = match snd m with
    | Return x => snd (k x)
    | Raise e => Raise e
    end.
Proof.
  destruct m as [out [x|e]]; simpl; [destruct (k x)|]; reflexivity.
Qed.

Lemma gbind_lift {A B : Type} (r : result A) (k : A -> gen B) :
  gbind (lift r) k = match r with
                     | Return x => k x
                     | Raise e => ([], Raise e)
                     end.
Proof.
  destruct r as [x|e]; simpl; [destruct (k x)|]; reflexivity.
Qed.

Lemma gbind_yield {B : Type} (f : frame) (k : unit -> gen B) :
  gbind (yield f) k = (f :: fst (k tt), snd (k tt)).
Proof.
  unfold gbind, yield. destruct (k tt); reflexivity.
Qed.

Lemma gbind_gret {A B : Type} (x : A) (k : A -> gen B) : gbind (gret x) k = k x.
Proof.
  unfold gbind, gret. destruct (k x); reflexivity.
Qed.

Ltac run_gen :=
  repeat first [rewrite gbind_lift | rewrite gbind_yield | rewrite gbind_gret];
  cbn -[gbind].

Lemma sse_module_frames (m : ModuleClass) (v : value) :
  Forall loop_frame (fst (sse_module m v)).
Proof.
  unfold sse_module, loop_frame. run_gen.
  destruct (mod_new m) as [inst|e]; run_gen; [|constructor].
  destruct (onProgressStartMessage m inst v) as [started|e]; run_gen;
    [|constructor].
  constructor; [simpl; auto|].
  destruct (run m (self_after started) (data_after started)) as [ran|e]; run_gen; [|constructor].
  destruct (coerce_output m (fst ran)) as [v'|e]; run_gen; [|constructor].
  constructor; [simpl; auto|].
  destruct (onProgressEndMessage m (snd ran) v') as [ended|e]; run_gen;
    [|constructor].
  constructor; [simpl; auto|constructor].
Qed.

Lemma sse_invalid_frames (v : value) : Forall loop_frame (fst (sse_invalid v)).
Proof.
  unfold sse_invalid, loop_frame.
  destruct (json_serializable v); run_gen; [|constructor].
  constructor; [|constructor].
  right; right; right. split; reflexivity.
Qed.

Lemma sse_loop_frames (mods : list pyobj) :
  forall v, Forall loop_frame (fst (sse_loop mods v)).
Proof.
  induction mods as [|o mods IH]; intros v; cbn -[gbind]; [constructor|].
  rewrite gbind_lift.
  destruct (issubclass_BaseModule o) as [[m|]|e]; [| |constructor].
  - rewrite gbind_fst. apply Forall_app. split; [apply sse_module_frames|].
    destruct (snd (sse_module m v)); [apply IH|constructor].
  - rewrite gbind_fst. apply Forall_app. split; [apply sse_invalid_frames|].
    destruct (snd (sse_invalid v)); [apply IH|constructor].
Qed.

Lemma loop_frame_not_End (f : frame) : loop_frame f -> status f <> "End".
Proof.
  intros [H|[H|[H|[H _]]]]; rewrite H; discriminate.
Qed.

Lemma loop_frame_not_warning (f : frame) :
  loop_frame f -> is_not_activated f = false.
Proof.
  unfold is_not_activated.
  intros [H|[H|[H|[H Hm]]]]; rewrite H; try reflexivity.
  rewrite Hm. reflexivity.
Qed.

(** The generator, by what its three stages do. *)
Lemma sse_generator_stages (self : Pipeline) (input_data : value) :
  sse_generator self input_data
  = let warning := if sse self then [] else [not_activated_frame] in
    match to_input self input_data with
    | Raise e => (warning, Raise e)
    | Return data0 =>
        match sse_loop (list_functions self) data0 with
        | (frames, Return _) => (warning ++ frames ++ [end_frame], Return tt)
        | (frames, Raise e) => (warning ++ frames, Raise e)
        end
    end.
Proof.
  unfold sse_generator.
  destruct (sse self); run_gen;
    (destruct (to_input self input_data) as [data0|e]; simpl; [|reflexivity]);
    (destruct (sse_loop (list_functions self) data0) as [frames [v|e]]; simpl;
     reflexivity).
Qed.

Lemma gbind_assoc {A B C : Type} (m : gen A) (k : A -> gen B) (h : B -> gen C) :
  gbind (gbind m k) h = gbind m (fun x => gbind (k x) h).
Proof.
  destruct m as [out [x|e]]; simpl; [|reflexivity].
  destruct (k x) as [out1 [y|e]]; simpl; [|reflexivity].
  destruct (h y) as [out2 r]. now rewrite app_assoc.
Qed.

Lemma gbind_returned {A B : Type} (out : list frame) (x : A) (k : A -> gen B) :
  gbind (out, Return x) k = (out ++ fst (k x), snd (k x)).
Proof.
  simpl. destruct (k x); reflexivity.
Qed.

Lemma gbind_ext {A B : Type} (m : gen A) (k k' : A -> gen B) :
  (forall x, k x = k' x) -> gbind m k = gbind m k'.
Proof.
  intros Hk. destruct m as [out [x|e]]; simpl; [|reflexivity]. now rewrite Hk.
Qed.

Lemma sse_loop_app (l1 l2 : list pyobj) :
  forall v, sse_loop (l1 ++ l2) v = gbind (sse_loop l1 v) (sse_loop l2).
Proof.
  induction l1 as [|o l1 IH]; intros v; cbn -[gbind].
  - now rewrite gbind_gret.
  - rewrite !gbind_lift.
    destruct (issubclass_BaseModule o) as [[m|]|e]; [| |reflexivity];
      rewrite gbind_assoc; apply gbind_ext; intros v'; apply IH.
Qed.

Lemma sse_module_succeeds (m : ModuleClass) (v v' : value) :
  module_succeeds m v v' ->
  exists frames,
    sse_module m v = (frames, Return v') /\
    map status frames = module_statuses.
Proof.
  intros (inst & started & out & s2 & rebuilt & ended
          & Hnew & Hstart & Hrun & Hco & Hend & <-).
  unfold sse_module. rewrite Hnew. run_gen. rewrite Hstart. run_gen.
  rewrite Hrun. run_gen. rewrite Hco. run_gen. rewrite Hend. run_gen.
  eexists. split; reflexivity.
Qed.

Lemma sse_loop_succeeds (ms : list ModuleClass) :
  forall v,
    all_succeed ms v ->
    exists frames v',
      sse_loop (map OModule ms) v = (frames, Return v') /\
      map status frames = flat_map (fun _ => module_statuses) ms.
Proof.
  induction ms as [|m ms IH]; intros v Hall; cbn -[gbind].
  - exists [], v. split; reflexivity.
  - destruct Hall as (v1 & Hm & Hrest).
    destruct (sse_module_succeeds Hm) as (frames1 & Hstep & Hst1).
    destruct (IH v1 Hrest) as (frames2 & v' & Hloop & Hst2).
    rewrite gbind_lift. cbn -[gbind].
    exists (frames1 ++ frames2), v'. split.
    + unfold gbind at 1. rewrite Hstep, Hloop. reflexivity.
    + rewrite map_app, Hst1, Hst2. reflexivity.
Qed.

Lemma length_module_frames {A : Type} (l : list A) :
  List.length (flat_map (fun _ => module_statuses) l) = 3 * List.length l.
Proof.
  induction l as [|x l IH]; simpl in *; [reflexivity|]. rewrite IH. lia.
Qed.

(** C4. On a streaming pipeline whose N steps are module classes, when the
    input converts and every call made on every module returns, the
    generator yields exactly 3N + 1 frames and is exhausted: a start frame,
    a completed frame and an end frame for each step in order, then the
    terminal End frame. *)
Theorem stream_yields_three_frames_per_module
        (self : Pipeline) (input_data : value)
        (ms : list ModuleClass) (data0 : value) :
  sse self = true ->
  list_functions self = map OModule ms ->
  to_input self input_data = Return data0 ->
  all_succeed ms data0 ->
  exists body,
    sse_generator self input_data = (body ++ [end_frame], Return tt) /\
    map status body = flat_map (fun _ => module_statuses) ms /\
    List.length (body ++ [end_frame]) = 3 * List.length ms + 1.
Proof.
  intros Hsse Hl Hconv Hall.
  destruct (sse_loop_succeeds ms data0 Hall) as (frames & v' & Hloop & Hst).
  exists frames. rewrite sse_generator_stages, Hsse, Hconv, Hl, Hloop.
  split; [reflexivity|]. split; [exact Hst|].
  rewrite length_app, <- (length_map status frames), Hst, length_module_frames.
  simpl. lia.
Qed.

Lemma sse_module_raises (m : ModuleClass) (v : value) (e : exn) :
  module_raises m v e ->
  snd (sse_module m v) = Raise e /\ List.length (fst (sse_module m v)) <= 2.
Proof.
  unfold sse_module. intros [Hnew|(inst & Hnew & H)]; rewrite Hnew; run_gen.
  { split; [reflexivity|lia]. }
  destruct H as [Hst|(started & Hst & H)]; rewrite Hst; run_gen.
  { split; [reflexivity|lia]. }
  destruct H as [Hrun|(out & s2 & Hrun & H)]; rewrite Hrun; run_gen.
  { split; [reflexivity|lia]. }
  destruct H as [Hco|(rebuilt & Hco & Hend)]; rewrite Hco; run_gen.
  { split; [reflexivity|lia]. }
  rewrite Hend. run_gen. split; [reflexivity|lia].
Qed.

(** C5, as the code has it.  The generator has no exception handler.  When
    nothing raises, the yielded frames end with the End frame with null
    data, the only frame with that status.  When the input conversion
    raises, the exception leaves the generator at once; when a call made on
    a module class raises (its instantiation, a hook, [run] or the rebuild
    of what [run] returned), the exception leaves the generator after the
    frames of the steps before it and at most two frames of that step.
    Nothing is yielded after it, and no frame yielded so far has the End
    status. *)
Theorem stream_ends_with_End_unless_raised (self : Pipeline) (input_data : value) :
  match sse_generator self input_data with
  | (frames, Return _) =>
      exists before,
        frames = before ++ [end_frame] /\
        Forall (fun f => status f <> "End") before
  | (frames, Raise _) => Forall (fun f => status f <> "End") frames
  end /\
  (forall e,
      to_input self input_data = Raise e ->
      sse_generator self input_data
      = ((if sse self then [] else [not_activated_frame]), Raise e)) /\
  (forall data0 pre m post frames v e,
      to_input self input_data = Return data0 ->
      list_functions self = pre ++ OModule m :: post ->
      sse_loop pre data0 = (frames, Return v) ->
      module_raises m v e ->
      exists cut,
        sse_generator self input_data
        = ((if sse self then [] else [not_activated_frame]) ++ frames ++ cut,
           Raise e) /\
        List.length cut <= 2 /\
        Forall (fun f => status f <> "End") (frames ++ cut)).
Proof.
  split; [|split].
  - rewrite sse_generator_stages.
    assert (Hwarn : Forall (fun f => status f <> "End")
                           (if sse self then [] else [not_activated_frame])).
    { destruct (sse self); repeat constructor. discriminate. }
    cbv zeta.
    destruct (to_input self input_data) as [data0|e]; [|exact Hwarn].
    pose proof (sse_loop_frames (list_functions self) data0) as Hloop.
    destruct (sse_loop (list_functions self) data0) as [frames [v|e]];
      simpl in Hloop.
    + exists ((if sse self then [] else [not_activated_frame]) ++ frames).
      split; [now rewrite app_assoc|].
      apply Forall_app. split; [exact Hwarn|].
      eapply Forall_impl; [|exact Hloop]. apply loop_frame_not_End.
    + apply Forall_app. split; [exact Hwarn|].
      eapply Forall_impl; [|exact Hloop]. apply loop_frame_not_End.
  - intros e He. now rewrite sse_generator_stages, He.
  - intros data0 pre m post frames v e Hconv Hl Hpre Hraise.
    destruct (sse_module_raises Hraise) as [Hsnd Hlen].
    exists (fst (sse_module m v)).
    assert (Hloop : sse_loop (list_functions self) data0
                    = (frames ++ fst (sse_module m v), Raise e)).
    { rewrite Hl, sse_loop_app, Hpre, gbind_returned. cbn -[gbind].
      rewrite gbind_lift. cbn -[gbind]. rewrite gbind_fst, gbind_snd, Hsnd.
      now rewrite app_nil_r. }
    split; [|split; [exact Hlen|]].
    + now rewrite sse_generator_stages, Hconv, Hloop.
    + pose proof (sse_loop_frames (list_functions self) data0) as Hfr.
      rewrite Hloop in Hfr. cbn [fst] in Hfr.
      eapply Forall_impl; [|exact Hfr]. apply loop_frame_not_End.
Qed.

Lemma filter_none {A : Type} (p : A -> bool) (l : list A) :
  Forall (fun x => p x = false) l -> filter p l = [].
Proof.
  induction 1 as [|x l Hx _ IH]; simpl; [reflexivity|]. now rewrite Hx.
Qed.

Lemma sse_frames_not_warning (self : Pipeline) (input_data : value) :
  sse self = true ->
  Forall (fun f => is_not_activated f = false)
         (fst (sse_generator self input_data)).
Proof.
  intros Hsse. rewrite sse_generator_stages, Hsse. cbv zeta.
  destruct (to_input self input_data) as [data0|e]; [|constructor].
  pose proof (sse_loop_frames (list_functions self) data0) as Hloop.
  destruct (sse_loop (list_functions self) data0) as [frames [v|e]];
    simpl in *.
  - apply Forall_app. split; [|repeat constructor].
    eapply Forall_impl; [|exact Hloop]. apply loop_frame_not_warning.
  - eapply Forall_impl; [|exact Hloop]. apply loop_frame_not_warning.
Qed.

(** C6. On a pipeline that is not flagged for streaming the generator
    yields the frame that says streaming is not activated, once, and then
    goes on exactly as on the same pipeline flagged for streaming: it
    converts the input and takes each registered step as a module class.
    When every call on the module classes returns, their three frames each
    follow the warning, then the End frame; the start hook of the first
    step is awaited and its frame is the second frame of the stream; a
    call that raises on the first step leaves the generator; and a first
    step that is no class at all, as [functions] registers them, meets the
    [issubclass] test of the loop, whose TypeError leaves the generator. *)
Theorem stream_without_sse_warns_and_goes_on (self : Pipeline) (input_data : value) :
  sse self = false ->
  (sse_generator self input_data
   = (not_activated_frame :: fst (sse_generator (set_sse self true) input_data),
      snd (sse_generator (set_sse self true) input_data)) /\
   List.length (filter is_not_activated (fst (sse_generator self input_data))) = 1) /\
  (forall ms data0,
      list_functions self = map OModule ms ->
      to_input self input_data = Return data0 ->
      all_succeed ms data0 ->
      exists body,
        sse_generator self input_data
        = (not_activated_frame :: body ++ [end_frame], Return tt) /\
        map status body = flat_map (fun _ => module_statuses) ms) /\
  (forall m rest data0 inst started,
      list_functions self = OModule m :: rest ->
      to_input self input_data = Return data0 ->
      mod_new m = Return inst ->
      onProgressStartMessage m inst data0 = Return started ->
      exists others,
        fst (sse_generator self input_data)
        = not_activated_frame
            :: mkFrame (said started) "onProgressStartMessage"
                       (show (data_after started))
            :: others) /\
  (forall m rest data0 e,
      list_functions self = OModule m :: rest ->
      to_input self input_data = Return data0 ->
      module_raises m data0 e ->
      snd (sse_generator self input_data) = Raise e) /\
  (forall bad rest data0,
      list_functions self = bad :: rest ->
      (forall m, bad <> OModule m) ->
      (forall n, bad <> OClass n) ->
      to_input self input_data = Return data0 ->
      sse_generator self input_data
      = ([not_activated_frame],
         Raise (mkExn TypeError "issubclass() arg 1 must be a class"))).
Proof.
  intros Hsse.
  assert (Heq : sse_generator self input_data
                = (not_activated_frame
                     :: fst (sse_generator (set_sse self true) input_data),
                   snd (sse_generator (set_sse self true) input_data))).
  { rewrite !sse_generator_stages, Hsse. cbv zeta.
    change (to_input (set_sse self true) input_data)
      with (to_input self input_data).
    change (list_functions (set_sse self true)) with (list_functions self).
    change (sse (set_sse self true)) with true. cbv iota.
    destruct (to_input self input_data) as [data0|e]; [|reflexivity].
    destruct (sse_loop (list_functions self) data0) as [frames [v|e]];
      reflexivity. }
  split; [split; [exact Heq|]|split; [|split; [|split]]].
  - rewrite Heq. cbn [fst filter is_not_activated].
    change (is_not_activated not_activated_frame) with true. cbv iota.
    cbn [List.length]. f_equal.
    rewrite filter_none; [reflexivity|].
    now apply sse_frames_not_warning.
  - intros ms data0 Hl Hconv Hall.
    destruct (sse_loop_succeeds ms data0 Hall) as (frames & v' & Hloop & Hst).
    exists frames. rewrite sse_generator_stages, Hsse, Hconv, Hl, Hloop.
    split; [reflexivity|exact Hst].
  - intros m rest data0 inst started Hl Hconv Hnew Hstart.
    rewrite sse_generator_stages, Hsse, Hconv, Hl. cbv zeta.
    cbn -[gbind]. rewrite gbind_lift. cbn -[gbind].
    unfold sse_module at 1. rewrite Hnew. run_gen. rewrite Hstart. run_gen.
    match goal with
    | |- context [gbind (?f :: ?l, ?r) ?k] =>
        destruct (gbind (f :: l, r) k) as [frames [v|e]] eqn:Hg
    end.
    + pose proof (f_equal fst Hg) as Hf. rewrite gbind_fst in Hf.
      cbn [fst app] in Hf. rewrite <- Hf. cbn [fst app]. eauto.
    + pose proof (f_equal fst Hg) as Hf. rewrite gbind_fst in Hf.
      cbn [fst app] in Hf. rewrite <- Hf. cbn [fst app]. eauto.
  - intros m rest data0 e Hl Hconv Hraise.
    destruct (sse_module_raises Hraise) as [Hsnd _].
    rewrite sse_generator_stages, Hsse, Hconv, Hl. cbv zeta.
    cbn -[gbind]. rewrite gbind_lift. cbn -[gbind].
    destruct (gbind (sse_module m data0) (fun data' => sse_loop rest data'))
      as [frames r] eqn:Hg.
    pose proof (f_equal snd Hg) as Hs. rewrite gbind_snd, Hsnd in Hs.
    cbn [snd] in Hs. now rewrite <- Hs.
  - intros bad rest data0 Hl Hmod Hcls Hconv.
    rewrite sse_generator_stages, Hsse, Hconv, Hl. cbv zeta.
    destruct bad as [f|m|n|n].
    + reflexivity.
    + now contradiction (Hmod m).
    + now contradiction (Hcls n).
    + reflexivity.
Qed.

End Properties.

(** * The properties on the sample objects *)

Import Examples.

(** The scenario of two steps on [{"x": 1}]. *)
Example build_two_steps :
  build (env := env0) two_steps (x_is 1)
  = Return [("status", VStr "success");
            ("message", VStr "Pipeline built successfully.");
            ("result", VDict [("x", VInt 4)])].
Proof. reflexivity. Qed.

Example build_bare_value :
  build (env := env0)
        (fst (functions (env := env0) [OFunction bare] (fresh false))) (x_is 1)
  = Return (failed mismatch_message).
Proof. reflexivity. Qed.

Example build_two_steps_bad_input :
  build (env := env0) two_steps [("x", VStr "not-a-number")]
  = Return (failed "Input data validation error: 1 validation error for X").
Proof. reflexivity. Qed.

Lemma build_success_iff_output_rebuilt_witness :
  build (env := env0) relabelled (x_is 1) = Return (success (x_is 1)).
Proof.
  apply (proj1 (build_success_iff_output_rebuilt (env := env0)
                  relabelled (x_is 1) (a := "X") (fields := x_is 1)
                  eq_refl eq_refl)).
  exists "Y", (x_is 1), "X". repeat split.
Defined.

(** C1, counterexample.  The step of [relabelled] leaves an instance of
    [Y] while the declared output schema is [X]; [build] succeeds all the
    same. *)
Lemma build_succeeds_on_distinct_schema :
  ~ ((exists r, build (env := env0) relabelled (x_is 1) = Return r /\
                dict_get r "status" = Some (VStr "success"))
     <->
     (exists v, thread call_to_function (list_functions relabelled)
                       (VModel "X" (x_is 1)) = Return v /\
                class_of v = output_model relabelled)).
Proof.
  intros [Himp _].
  destruct Himp as (v & Hv & Hc).
  - exists (success (x_is 1)). split; reflexivity.
  - vm_compute in Hv. injection Hv as <-. discriminate Hc.
Qed.

(** C2, counterexample.  The second step of [exiting] raises SystemExit,
    which leaves [build]. *)
Lemma build_lets_SystemExit_through :
  build (env := env0) exiting (x_is 1) = Raise (mkExn BaseOnly "SystemExit") /\
  ~ (exists r, build (env := env0) exiting (x_is 1) = Return r /\ structured r).
Proof.
  split; [reflexivity|]. intros (r & Hr & _). discriminate Hr.
Qed.

Lemma build_catches_every_Exception_witness :
  build (env := env0) two_steps [("x", VStr "not-a-number")]
  = Return (failed "Input data validation error: 1 validation error for X") /\
  build (env := env0) rejecting (x_is 1)
  = Return (failed "Value error during pipeline execution: x must be positive") /\
  abuild (env := env0) exiting (x_is 1) = Raise (mkExn BaseOnly "SystemExit").
Proof.
  split; [|split].
  - apply (proj1 (proj1 (proj2 (@build_catches_every_Exception env0 two_steps
                                  [("x", VStr "not-a-number")])))
                 (mkExn ValueError "1 validation error for X")).
    reflexivity.
  - apply (proj1 (proj2 (proj1 (proj2 (@build_catches_every_Exception env0
                                         rejecting (x_is 1)))))
                 (VModel "X" (x_is 1))
                 (mkExn ValueError "x must be positive")); reflexivity.
  - apply (proj1 (proj2 (proj2 (proj2 (@build_catches_every_Exception env0
                                         exiting (x_is 1)))))
                 (VModel "X" (x_is 1)) (mkExn BaseOnly "SystemExit"));
      reflexivity.
Defined.

Lemma schemas_inferred_from_first_and_last_witness :
  exists self',
    functions (env := env0) [OCallable "addOne"; OFunction double] (fresh false)
    = (self', Return tt) /\
    list_functions self' = [OFunction addOne; OFunction double] /\
    input_model self' = Some "X" /\
    output_model self' = Some "X".
Proof.
  apply (proj1 (schemas_inferred_from_first_and_last (env := env0)
                  (fresh false) eq_refl eq_refl eq_refl)
               [OCallable "addOne"; OFunction double] addOne [double]).
  repeat constructor.
Defined.

(** C3, counterexample.  No schema is set explicitly on [two_calls]; its
    second registration call finds the output schema inferred by the first
    and keeps it, though the last step is now [toY]. *)
Lemma second_registration_keeps_output_schema :
  input_model (fresh false) = None /\
  output_model (fresh false) = None /\
  functions (env := env0) [OFunction toY]
            (fst (functions (env := env0) [OFunction addOne] (fresh false)))
  = (two_calls, Return tt) /\
  list_functions two_calls = [OFunction addOne; OFunction toY] /\
  output_model two_calls = Some "X" /\
  ~ (output_model two_calls = fn_output_model toY).
Proof.
  repeat split. discriminate.
Qed.

Lemma stream_yields_three_frames_per_module_witness :
  exists body,
    sse_generator (env := env0) counting (VDict (x_is 1))
    = (body ++ [end_frame], Return tt) /\
    map status body = flat_map (fun _ => module_statuses) [Incr; Incr] /\
    List.length (body ++ [end_frame]) = 3 * 2 + 1.
Proof.
  apply (stream_yields_three_frames_per_module (env := env0)
           counting (VDict (x_is 1)) [Incr; Incr]
           (data0 := VModel "X" (x_is 1)) eq_refl eq_refl eq_refl).
  exists (VModel "X" (x_is 2)). split.
  - exists 0, (mkHooked "Incrementing" 1 (VModel "X" (x_is 1))),
      (VDict (x_is 2)), 2, (VModel "X" (x_is 2)),
      (mkHooked "Incremented" 3 (VModel "X" (x_is 2))).
    repeat split.
  - exists (VModel "X" (x_is 3)). split; [|exact I].
    exists 0, (mkHooked "Incrementing" 1 (VModel "X" (x_is 2))),
      (VDict (x_is 3)), 2, (VModel "X" (x_is 3)),
      (mkHooked "Incremented" 3 (VModel "X" (x_is 3))).
    repeat split.
Defined.

Lemma stream_ends_with_End_unless_raised_witness :
  sse_generator (env := env0) counting (VDict [("x", VStr "not-a-number")])
  = ([], Raise (mkExn ValueError "1 validation error for X")) /\
  exists cut,
    sse_generator (env := env0) failing_stream (VDict (x_is 1))
    = (fst (sse_loop (env := env0) [OModule Incr] (VModel "X" (x_is 1))) ++ cut,
       Raise (mkExn ValueError "cannot process")) /\
    List.length cut <= 2 /\
    Forall (fun f => status f <> "End")
           (fst (sse_loop (env := env0) [OModule Incr] (VModel "X" (x_is 1)))
              ++ cut).
Proof.
  split.
  - apply (proj1 (proj2 (@stream_ends_with_End_unless_raised env0 counting
                           (VDict [("x", VStr "not-a-number")])))
                 (mkExn ValueError "1 validation error for X")).
    reflexivity.
  - apply (proj2 (proj2 (@stream_ends_with_End_unless_raised env0
                           failing_stream (VDict (x_is 1))))
                 (VModel "X" (x_is 1)) [OModule Incr] Failing []
                 (fst (sse_loop (env := env0) [OModule Incr]
                                (VModel "X" (x_is 1))))
                 (VModel "X" (x_is 2))
                 (mkExn ValueError "cannot process")
                 eq_refl eq_refl eq_refl).
    right. exists tt. split; [reflexivity|].
    right. exists (mkHooked "Starting" tt (VModel "X" (x_is 2))).
    split; [reflexivity|]. left. reflexivity.
Defined.

(** C5, counterexample.  [run] of the second module class of
    [failing_stream] raises: the frames yielded do not end with an End
    frame. *)
Lemma stream_aborted_without_End :
  ~ (exists before final,
        fst (sse_generator (env := env0) failing_stream (VDict (x_is 1)))
        = before ++ [final] /\
        status final = "End" /\ data final = Null).
Proof.
  intros (before & final & Hfr & Hst & _).
  assert (Hall : Forall (fun f => status f <> "End")
                        (fst (sse_generator (env := env0) failing_stream
                                            (VDict (x_is 1))))).
  { vm_compute. repeat constructor; discriminate. }
  rewrite Hfr in Hall. apply Forall_app in Hall. destruct Hall as [_ Hfin].
  inversion Hfin as [|? ? Hne _]. now apply Hne.
Qed.

Lemma stream_without_sse_warns_and_goes_on_witness :
  (sse_generator (env := env0) counting_plain (VDict (x_is 1))
   = (not_activated_frame
        :: fst (sse_generator (env := env0) (set_sse counting_plain true)
                              (VDict (x_is 1))),
      snd (sse_generator (env := env0) (set_sse counting_plain true)
                         (VDict (x_is 1)))) /\
   List.length (filter is_not_activated
                  (fst (sse_generator (env := env0) counting_plain
                                      (VDict (x_is 1))))) = 1) /\
  (exists body,
      sse_generator (env := env0) counting_plain (VDict (x_is 1))
      = (not_activated_frame :: body ++ [end_frame], Return tt) /\
      map status body = flat_map (fun _ => module_statuses) [Incr]) /\
  sse_generator (env := env0) two_steps (VDict (x_is 1))
  = ([not_activated_frame],
     Raise (mkExn TypeError "issubclass() arg 1 must be a class")).
Proof.
  pose proof (@stream_without_sse_warns_and_goes_on env0 counting_plain
                (VDict (x_is 1)) eq_refl) as Hmodules.
  pose proof (@stream_without_sse_warns_and_goes_on env0 two_steps
                (VDict (x_is 1)) eq_refl) as Hfunctions.
  split; [exact (proj1 Hmodules)|]. split.
  - apply (proj1 (proj2 Hmodules) [Incr] (VModel "X" (x_is 1)) eq_refl eq_refl).
    exists (VModel "X" (x_is 2)). split; [|exact I].
    exists 0, (mkHooked "Incrementing" 1 (VModel "X" (x_is 1))),
      (VDict (x_is 2)), 2, (VModel "X" (x_is 2)),
      (mkHooked "Incremented" 3 (VModel "X" (x_is 2))).
    repeat split.
  - apply (proj2 (proj2 (proj2 (proj2 Hfunctions)))
                 (OFunction addOne) [OFunction double] (VModel "X" (x_is 1))
                 eq_refl).
    + discriminate.
    + discriminate.
    + reflexivity.
Defined.

Lemma setters_overwrite_registration_keeps_witness :
  input_model (fst (functions (env := env0) [OFunction addOne]
                              (input "Text" (fresh false)))) = Some "Text".
Proof.
  apply (proj2 (proj2 (setters_overwrite_registration_keeps (env := env0)
                         (input "Text" (fresh false)) "Text"))
               [OFunction addOne] _ (Return tt)).
  - left. reflexivity.
  - reflexivity.
Defined.

(** C7, counterexample.  After the steps of [two_steps] were registered
    and its input schema inferred as [X], a call of the setter replaces it,
    and [build] validates the input against the new schema. *)
Lemma later_setter_changes_schema :
  list_functions two_steps <> [] /\
  input_model two_steps = Some "X" /\
  input_model (input "Text" two_steps) = Some "Text" /\
  build (env := env0) two_steps (x_is 1) = Return (success (x_is 4)) /\
  build (env := env0) (input "Text" two_steps) (x_is 1)
  = Return (failed "Input data validation error: 1 validation error for Text") /\
  ~ (input_model (input "Text" two_steps) = input_model two_steps).
Proof.
  repeat split; discriminate.
Qed.

Lemma value_fault_caught_by_build_raised_by_arun_witness :
  build (env := env0) rejecting (x_is 1)
  = Return [("status", VStr "failed"); ("result", VNone);
            ("message",
             VStr "Value error during pipeline execution: x must be positive")] /\
  (sse rejecting = false ->
   arun (env := env0) rejecting (VDict (x_is 1))
   = Raise (mkExn ValueError "x must be positive")) /\
  (exists e', arun (env := env0) rejecting (VDict (x_is 1)) = Raise e').
Proof.
  apply (value_fault_caught_by_build_raised_by_arun (env := env0)
           rejecting (x_is 1) (a := "X") (fields := x_is 1)
           (e := mkExn ValueError "x must be positive")
           eq_refl eq_refl eq_refl eq_refl eq_refl).
Defined.

Lemma empty_registration_and_zero_steps_witness :
  build (env := env0) no_steps (x_is 1) = Return (success (x_is 1)).
Proof.
  apply (proj2 (proj1 (proj2 (proj2 (empty_registration_and_zero_steps
                                       (env := env0) no_steps))) eq_refl)
               "X" "X" (x_is 1) (x_is 1) (x_is 1)
               eq_refl eq_refl eq_refl eq_refl).
Defined.

(** C9, counterexample.  [no_steps] has no step and both schemas set:
    [build] succeeds, and the generator yields its frames without any
    error. *)
Lemma build_succeeds_without_steps :
  list_functions no_steps = [] /\
  ~ (exists msg, build (env := env0) no_steps (x_is 1) = Return (failed msg)) /\
  build (env := env0) no_steps (x_is 1) = Return (success (x_is 1)) /\
  sse_generator (env := env0) no_steps (VDict (x_is 1))
  = ([not_activated_frame; end_frame], Return tt).
Proof.
  split; [reflexivity|]. split; [|split; reflexivity].
  intros (msg & H). discriminate H.
Qed.

Lemma modules_partial_on_error_witness :
  exists (ms : list ModuleClass) (bad : pyobj) (post : list pyobj)
         (self' : Pipeline) (e : exn),
    [OModule Incr; OClass "str"; OModule Failing]
    = map OModule ms ++ bad :: post /\
    (forall m, bad <> OModule m) /\
    modules [OModule Incr; OClass "str"; OModule Failing] (fresh true)
    = (self', Raise e) /\
    list_functions self' = list_functions (fresh true) ++ map OModule ms /\
    input_model self' = input_model (fresh true) /\
    output_model self' = output_model (fresh true).
Proof.
  apply (modules_partial_on_error (fresh true)
           (units := [OModule Incr; OClass "str"; OModule Failing])).
  apply Exists_cons_tl, Exists_cons_hd. discriminate.
Defined.

(** * Further properties of the engine *)

Section MoreProperties.

Context {env : Environment}.

Ltac step_gen :=
  repeat first [rewrite gbind_lift | rewrite gbind_yield | rewrite gbind_gret];
  cbn -[gbind].

(** ** Registration *)

Lemma infer_models_frame (attr_in attr_out : pyobj -> result (option Model))
      (self self' : Pipeline) (r : result unit) :
  infer_models attr_in attr_out self = (self', r) ->
  list_functions self' = list_functions self /\
  name self' = name self /\ id self' = id self /\ sse self' = sse self.
Proof.
  unfold infer_models, infer_input_model, infer_output_model.
  destruct self as [n i s im om l]; simpl.
  destruct im as [a|], om as [b|], l as [|first rest]; simpl;
    repeat match goal with
           | |- context [match ?x with Return _ => _ | Raise _ => _ end] =>
               destruct x; simpl
           end;
    intros [= <- _]; simpl; auto.
Qed.

(** X1. When every unit is a Function or is wrapped into one, [functions]
    appends them after the steps already registered, in the order given,
    and leaves the name, the identifier and the streaming flag alone,
    whether or not the inference that follows raises. *)
Theorem functions_appends_in_order (self : Pipeline)
        (units : list pyobj) (fs : list Function) :
  Forall2 (fun o g => wrap o = Return (OFunction g)) units fs ->
  list_functions (fst (functions units self))
  = list_functions self ++ map OFunction fs /\
  name (fst (functions units self)) = name self /\
  id (fst (functions units self)) = id self /\
  sse (fst (functions units self)) = sse self.
Proof.
  intros Hw. unfold functions. rewrite (functions_loop_wrapped Hw).
  destruct (infer_models attr_input_model attr_output_model
                         (extend self (map OFunction fs))) as [self' r] eqn:Hinf.
  apply infer_models_frame in Hinf. simpl in *. exact Hinf.
Qed.

Lemma functions_loop_stops (pre post : list pyobj) (bad : pyobj)
      (fs : list Function) (e : exn) :
  Forall2 (fun o g => wrap o = Return (OFunction g)) pre fs ->
  wrap bad = Raise e ->
  forall self,
    functions_loop (pre ++ bad :: post) self
    = (extend self (map OFunction fs), Raise e).
Proof.
  intros Hw Hbad. induction Hw as [|o g pre fs Ho _ IH]; intros self; simpl.
  - rewrite Hbad. now rewrite extend_nil.
  - rewrite Ho, IH. now rewrite extend_append.
Qed.

(** X2. [functions] is not atomic on error either: when wrapping a unit
    raises, the call raises that exception, the units before it stay
    appended, the units after it are not looked at, and no schema is
    inferred. *)
Theorem functions_partial_on_error (self : Pipeline) (pre post : list pyobj)
        (bad : pyobj) (fs : list Function) (e : exn) :
  Forall2 (fun o g => wrap o = Return (OFunction g)) pre fs ->
  wrap bad = Raise e ->
  exists self',
    functions (pre ++ bad :: post) self = (self', Raise e) /\
    list_functions self' = list_functions self ++ map OFunction fs /\
    input_model self' = input_model self /\
    output_model self' = output_model self.
Proof.
  intros Hw Hbad. exists (extend self (map OFunction fs)).
  unfold functions. rewrite (@functions_loop_stops pre post bad fs e Hw Hbad).
  repeat split.
Qed.

Lemma wrap_gives_Function (o o' : pyobj) :
  wrap o = Return o' -> is_Function o' = true.
Proof.
  unfold wrap. destruct (is_Function o) eqn:Ho.
  - now intros [= <-].
  - destruct (as_Function o); simpl; [now intros [= <-]|discriminate].
Qed.

Lemma functions_loop_kind (units : list pyobj) :
  forall self self' r,
    functions_loop units self = (self', r) ->
    forallb is_Function (list_functions self) = true ->
    forallb is_Function (list_functions self') = true.
Proof.
  induction units as [|o units IH]; intros self self' r; simpl.
  - now intros [= <- _].
  - destruct (wrap o) as [g|e] eqn:Hw.
    + intros Hloop Hall. apply (IH _ _ _ Hloop). simpl.
      rewrite forallb_app, Hall. simpl.
      now rewrite (wrap_gives_Function _ Hw).
    + now intros [= <- _].
Qed.

Lemma modules_loop_kind (units : list pyobj) :
  forall self self' r,
    modules_loop units self = (self', r) ->
    forallb is_module_class (list_functions self) = true ->
    forallb is_module_class (list_functions self') = true.
Proof.
  induction units as [|o units IH]; intros self self' r; simpl.
  - now intros [= <- _].
  - destruct o as [f|m|n|n]; simpl; try (now intros [= <- _]).
    intros Hloop Hall. apply (IH _ _ _ Hloop). simpl.
    now rewrite forallb_app, Hall.
Qed.

(** X3. Each registration method keeps its kind of step: if every step
    registered so far is a Function instance, so is every step after
    [functions], and if every step is a module class, so is every step
    after [modules], whether the call returns or raises. *)
Theorem registration_keeps_step_kind (self self' : Pipeline)
        (units : list pyobj) (r : result unit) :
  (functions units self = (self', r) ->
   forallb is_Function (list_functions self) = true ->
   forallb is_Function (list_functions self') = true) /\
  (modules units self = (self', r) ->
   forallb is_module_class (list_functions self) = true ->
   forallb is_module_class (list_functions self') = true).
Proof.
  split.
  - unfold functions.
    destruct (functions_loop units self) as [self1 r1] eqn:Hloop.
    intros H Hall. pose proof (functions_loop_kind _ _ Hloop Hall) as H1.
    destruct r1 as [[]|e].
    + apply infer_models_frame in H. destruct H as [-> _]. exact H1.
    + now injection H as <- _.
  - unfold modules.
    destruct (modules_loop units self) as [self1 r1] eqn:Hloop.
    intros H Hall. pose proof (modules_loop_kind _ _ Hloop Hall) as H1.
    destruct r1 as [[]|e].
    + apply infer_models_frame in H. destruct H as [-> _]. exact H1.
    + now injection H as <- _.
Qed.

(** ** The compiled pipeline and the error boundary *)

Lemma bind_Return {A B : Type} (m : result A) (k : A -> result B) (b : B) :
  bind m k = Return b -> exists a, m = Return a /\ k a = Return b.
Proof.
  destruct m as [a|e]; simpl; [eauto|discriminate].
Qed.

Lemma recoerce_model (self : Pipeline) (x out : value) :
  recoerce self x = Return out ->
  is_BaseModel out = true ->
  exists b fields dump,
    output_model self = Some b /\
    validate b fields = Return dump /\
    out = VModel b dump.
Proof.
  unfold recoerce, call_model, construct.
  destruct x as [ |vb|vn|vs|vl|vd|c fields]; simpl;
    try (intros [= <-] H; simpl in H; discriminate H).
  destruct (output_model self) as [b|]; [|discriminate].
  destruct (validate b fields) as [dump|e] eqn:Hv; simpl; [|discriminate].
  intros [= <-] _. exists b, fields, dump. auto.
Qed.

Lemma call_model_Return (m : option Model) (kwargs : dict) (inst : value) :
  call_model m kwargs = Return inst ->
  exists a fields,
    m = Some a /\ validate a kwargs = Return fields /\ inst = VModel a fields.
Proof.
  unfold call_model, construct. destruct m as [a|]; [|discriminate].
  destruct (validate a kwargs) as [fields|e] eqn:Hv; simpl; [|discriminate].
  intros [= <-]. eauto.
Qed.

Lemma validate_output_success (self : Pipeline) (out : value) (dump : dict) :
  validate_output self out = Return (success dump) ->
  exists b c,
    output_model self = Some b /\ out = VModel c dump /\
    issubclass_model c b = true.
Proof.
  unfold validate_output, isinstance.
  destruct (output_model self) as [b|]; simpl; [|discriminate].
  destruct out as [ |vb|vn|vs|vl|vd|c fields]; simpl; try discriminate.
  destruct (issubclass_model c b) eqn:Hsub; simpl; [|discriminate].
  intros [= <-]. eauto.
Qed.

Lemma validate_output_of_instance (self : Pipeline) (b : Model) (dump : dict) :
  output_model self = Some b ->
  validate_output self (VModel b dump) = Return (success dump).
Proof.
  intros Hout. unfold validate_output, isinstance. rewrite Hout. simpl.
  now rewrite issubclass_model_refl.
Qed.

(** A success leaves the body of [build] only through its three stages. *)
Lemma build_body_success (compiled : value -> result value)
      (self : Pipeline) (input_data : dict) (dump : dict) :
  build_body compiled self input_data = Return (success dump) <->
  exists inst out,
    call_model (input_model self) input_data = Return inst /\
    compiled inst = Return out /\
    validate_output self out = Return (success dump).
Proof.
  unfold build_body. split.
  - destruct (call_model (input_model self) input_data) as [inst|e]; simpl.
    + destruct (compiled inst) as [out|e] eqn:Hc; simpl.
      * pose proof (validate_output_returns self out) as Hv.
        destruct (validate_output self out) as [r|e] eqn:Hvo; [|destruct Hv].
        simpl. intros [= ->]. eauto.
      * destruct e as [[] msg]; simpl; discriminate.
    + destruct e as [[] msg]; simpl; discriminate.
  - intros (inst & out & -> & Hc & Hv). simpl. now rewrite Hc, Hv.
Qed.

(** X4. A model instance returned by the compiled pipeline, in either
    form, is always an instance of exactly the declared output schema,
    made of fields that this schema validated; a pipeline without output
    schema never returns a model instance. *)
Theorem compiled_instance_is_of_output_schema (self : Pipeline) (v out : value) :
  to_function self v = Return out \/ to_afunction self v = Return out ->
  is_BaseModel out = true ->
  exists b fields dump,
    output_model self = Some b /\
    validate b fields = Return dump /\
    out = VModel b dump.
Proof.
  unfold to_function, to_afunction.
  intros [H|H] Hmodel; apply bind_Return in H; destruct H as (x & _ & Hre);
    exact (recoerce_model _ _ Hre Hmodel).
Qed.

Lemma compiled_success (compiled : value -> result value) (self : Pipeline)
      (input_data : dict) (dump : dict) :
  (forall v out, compiled v = Return out ->
                 exists x, recoerce self x = Return out) ->
  build_body compiled self input_data = Return (success dump) ->
  exists a fields b out,
    input_model self = Some a /\
    validate a input_data = Return fields /\
    output_model self = Some b /\
    validate b out = Return dump.
Proof.
  intros Hcomp H. apply build_body_success in H.
  destruct H as (inst & out & Hin & Hc & Hv).
  apply call_model_Return in Hin. destruct Hin as (a & fields & Ha & Hval & ->).
  apply validate_output_success in Hv. destruct Hv as (b & c & Hb & -> & _).
  destruct (Hcomp _ _ Hc) as (x & Hre).
  destruct (recoerce_model _ _ Hre eq_refl) as (b' & fs & dump' & Hb' & Hv' & [= -> ->]).
  exists a, fields, b', fs. auto.
Qed.

(** X5. Whatever the input, a success returned by [build] or [abuild]
    carries a mapping that the declared output schema validated, and was
    reached from an input that the declared input schema validated: no
    success is returned on a pipeline that lacks either schema. *)
Theorem build_success_was_validated (self : Pipeline) (input_data dump : dict) :
  build self input_data = Return (success dump) \/
  abuild self input_data = Return (success dump) ->
  exists a fields b out,
    input_model self = Some a /\
    validate a input_data = Return fields /\
    output_model self = Some b /\
    validate b out = Return dump.
Proof.
  unfold build, abuild. intros [H|H]; revert H; apply compiled_success.
  - unfold to_function. intros v out Hc. apply bind_Return in Hc.
    destruct Hc as (x & _ & Hre). eauto.
  - unfold to_afunction. intros v out Hc. apply bind_Return in Hc.
    destruct Hc as (x & _ & Hre). eauto.
Qed.

Lemma thread_agree (call1 call2 : pyobj -> value -> result value)
      (funcs : list pyobj) :
  Forall (fun o => forall v, call1 o v = call2 o v) funcs ->
  forall v, thread call1 funcs v = thread call2 funcs v.
Proof.
  induction 1 as [|o funcs Ho _ IH]; intros v; simpl; [reflexivity|].
  rewrite Ho. destruct (call2 o v) as [v'|e]; simpl; [apply IH|reflexivity].
Qed.

(** X6. On a pipeline whose steps are Function instances that behave the
    same in their blocking and suspend-capable forms, [build] and [abuild]
    return the same result on every input. *)
Theorem build_and_abuild_agree (self : Pipeline) :
  Forall (fun o => exists f, o = OFunction f /\
                             forall v, fn_to_function f v = fn_to_afunction f v)
         (list_functions self) ->
  forall input_data, build self input_data = abuild self input_data.
Proof.
  intros Hsame input_data.
  assert (Hc : forall v, to_function self v = to_afunction self v).
  { intros v. unfold to_function, to_afunction.
    rewrite (thread_agree call_to_function call_to_afunction); [reflexivity|].
    eapply Forall_impl; [|exact Hsame].
    intros o (f & -> & Hf) w. exact (Hf w). }
  unfold build, abuild, build_body.
  destruct (call_model (input_model self) input_data) as [inst|e];
    [|reflexivity].
  now rewrite Hc.
Qed.

(** X7. On a pipeline that is not flagged for streaming, [abuild] returns
    a success with a mapping exactly when [arun] on the same mapping
    returns a model instance, whose dump is that mapping. *)
Theorem abuild_succeeds_iff_arun_returns_instance
        (self : Pipeline) (input_data dump : dict) :
  sse self = false ->
  (abuild self input_data = Return (success dump) <->
   exists c, arun self (VDict input_data) = Return (VModel c dump)).
Proof.
  intros Hsse. unfold abuild, arun. rewrite Hsse. simpl. split.
  - intros H. apply build_body_success in H.
    destruct H as (inst & out & Hin & Hc & Hv).
    apply validate_output_success in Hv. destruct Hv as (b & c & _ & -> & _).
    exists c. rewrite Hin. simpl. exact Hc.
  - intros (c & H). apply bind_Return in H. destruct H as (inst & Hin & Hc).
    apply build_body_success. exists inst, (VModel c dump).
    split; [exact Hin|]. split; [exact Hc|].
    unfold to_afunction in Hc. apply bind_Return in Hc.
    destruct Hc as (x & _ & Hre).
    destruct (recoerce_model _ _ Hre eq_refl) as (b & fs & dump' & Hb & _ & [= -> ->]).
    now apply validate_output_of_instance.
Qed.

Lemma known_opening (opening rest : string) :
  In opening failure_openings ->
  (exists o r : string,
      In o failure_openings /\ (opening ++ rest = o ++ r)%string) /\
  forall s : string,
    (opening ++ rest <> "An unexpected error occurred: " ++ s)%string.
Proof.
  intros Hin. split; [eauto|].
  intros s. cbn in Hin.
  destruct Hin as [<-|[<-|[<-|[<-|[<-|[<-|[]]]]]]]; discriminate.
Qed.

Ltac opens o r :=
  intros [= <-];
  exact (@known_opening o r
           ltac:(cbn; repeat first [left; reflexivity | right])).

Lemma build_body_failure (compiled : value -> result value)
      (self : Pipeline) (input_data : dict) (msg : string) :
  build_body compiled self input_data = Return (failed msg) ->
  (exists o r : string, In o failure_openings /\ msg = (o ++ r)%string) /\
  forall s : string, msg <> ("An unexpected error occurred: " ++ s)%string.
Proof.
  unfold build_body.
  destruct (call_model (input_model self) input_data) as [inst|e]; simpl.
  - destruct (compiled inst) as [out|e]; simpl.
    + unfold validate_output, isinstance.
      destruct (output_model self) as [b|]; simpl.
      * destruct out as [ |vb|vn|vs|vl|vd|c fields]; simpl;
          try opens "Output schema mismatch."
                    " The output did not match the expected model schema.".
        destruct (issubclass_model c b); simpl; [discriminate|].
        opens "Output schema mismatch."
              " The output did not match the expected model schema.".
      * opens "Error validating output model: "
              "isinstance() arg 2 must be a type, a tuple of types, or a union".
    + destruct e as [[] m]; simpl; try discriminate.
      * opens "Type error during pipeline execution: " m.
      * opens "Value error during pipeline execution: " m.
      * opens "Unexpected error during pipeline execution: " m.
  - destruct e as [[] m]; simpl; try discriminate;
      opens "Input data validation error: " m.
Qed.

(** X8. The message of a failed result of [build] or [abuild] always opens
    with one of six phrases, one per place where the failure arose; the
    message of the outermost handler (An unexpected error occurred) is
    never returned, every failure being caught by an inner handler. *)
Theorem failed_message_openings (self : Pipeline) (input_data : dict)
        (msg : string) :
  build self input_data = Return (failed msg) \/
  abuild self input_data = Return (failed msg) ->
  (exists opening rest : string,
      In opening failure_openings /\ msg = (opening ++ rest)%string) /\
  forall s : string, msg <> ("An unexpected error occurred: " ++ s)%string.
Proof.
  unfold build, abuild. intros [H|H]; exact (build_body_failure _ _ _ H).
Qed.

(** ** Steps in sequence *)

Lemma thread_app (call : pyobj -> value -> result value)
      (l1 l2 : list pyobj) :
  forall v, thread call (l1 ++ l2) v = bind (thread call l1 v) (thread call l2).
Proof.
  induction l1 as [|o l1 IH]; intros v; simpl; [reflexivity|].
  destruct (call o v) as [v'|e]; simpl; [apply IH|reflexivity].
Qed.

Lemma arun_loop_app (l1 l2 : list pyobj) :
  forall v, arun_loop (l1 ++ l2) v = bind (arun_loop l1 v) (arun_loop l2).
Proof.
  induction l1 as [|o l1 IH]; intros v; simpl; [reflexivity|].
  destruct (issubclass_BaseModule o) as [[m|]|e]; simpl; try reflexivity.
  destruct (run_module m v) as [v'|e]; simpl; [apply IH|reflexivity].
Qed.

(** X9. Steps run in sequence and the first failure ends the run: threading
    data through the steps [l1 ++ l2] is threading it through [l1] and, if
    that returns, through [l2] from its result, in the compiled pipeline,
    in the module iteration and in the event stream (whose frames are those
    of [l1] followed by those of [l2]). *)
Theorem steps_run_in_sequence (l1 l2 : list pyobj) (v : value) :
  (forall call, thread call (l1 ++ l2) v
                = match thread call l1 v with
                  | Return v1 => thread call l2 v1
                  | Raise e => Raise e
                  end) /\
  arun_loop (l1 ++ l2) v
  = match arun_loop l1 v with
    | Return v1 => arun_loop l2 v1
    | Raise e => Raise e
    end /\
  sse_loop (l1 ++ l2) v
  = match sse_loop l1 v with
    | (frames, Return v1) =>
        (frames ++ fst (sse_loop l2 v1), snd (sse_loop l2 v1))
    | (frames, Raise e) => (frames, Raise e)
    end.
Proof.
  split; [|split].
  - intros call. apply thread_app.
  - apply arun_loop_app.
  - rewrite sse_loop_app. unfold gbind.
    destruct (sse_loop l1 v) as [frames [v1|e]]; [|reflexivity].
    destruct (sse_loop l2 v1); reflexivity.
Qed.

(** ** Steps that are not module classes *)

Lemma arun_loop_not_module (bad : pyobj) (post : list pyobj) (v : value) :
  (forall m, bad <> OModule m) ->
  arun_loop (bad :: post) v
  = Raise (not_a_module_error "The model should be type of BaseModule" bad).
Proof.
  intros Hbad. unfold not_a_module_error.
  destruct bad as [f|m|n|n]; simpl; try reflexivity.
  now contradiction (Hbad m).
Qed.

(** X11. The module iteration stops at the first step that is not a module
    class: after the module classes before it have run, [arun_modules]
    raises (a TypeError from [issubclass] for an object that is no class,
    the exception of the [else] branch for any other class) and runs none
    of the steps after it; so does [arun] on a pipeline flagged for
    streaming. *)
Theorem module_iteration_stops_at_non_module
        (self : Pipeline) (input_data data0 v : value)
        (ms : list ModuleClass) (bad : pyobj) (post : list pyobj) :
  list_functions self = map OModule ms ++ bad :: post ->
  (forall m, bad <> OModule m) ->
  to_input self input_data = Return data0 ->
  arun_loop (map OModule ms) data0 = Return v ->
  arun_modules self input_data
  = Raise (not_a_module_error "The model should be type of BaseModule" bad) /\
  (sse self = true ->
   arun self input_data
   = Raise (not_a_module_error "The model should be type of BaseModule" bad)).
Proof.
  intros Hl Hbad Hconv Hrun.
  assert (H : arun_modules self input_data
              = Raise (not_a_module_error
                         "The model should be type of BaseModule" bad)).
  { unfold arun_modules. rewrite Hconv, Hl. simpl.
    rewrite arun_loop_app, Hrun. simpl bind.
    now apply arun_loop_not_module. }
  split; [exact H|]. intros Hsse. unfold arun. now rewrite Hsse.
Qed.

(** X12. The event stream stops at the first step that is not a class: on
    a Function instance, as [functions] registers them, or any other
    object that is no class, [issubclass] raises a TypeError, which leaves
    the generator after the frames of the module classes before it; no End
    frame follows. *)
Theorem stream_stops_at_non_class
        (self : Pipeline) (input_data data0 v : value)
        (ms : list ModuleClass) (bad : pyobj) (post : list pyobj)
        (frames : list frame) :
  list_functions self = map OModule ms ++ bad :: post ->
  (forall m, bad <> OModule m) ->
  (forall n, bad <> OClass n) ->
  to_input self input_data = Return data0 ->
  sse_loop (map OModule ms) data0 = (frames, Return v) ->
  sse_generator self input_data
  = ((if sse self then [] else [not_activated_frame]) ++ frames,
     Raise (mkExn TypeError "issubclass() arg 1 must be a class")).
Proof.
  intros Hl Hmod Hcls Hconv Hloop.
  rewrite sse_generator_stages, Hconv, Hl, sse_loop_app, Hloop. cbv zeta.
  destruct bad as [f|m|n|n].
  - cbn. now rewrite app_nil_r.
  - now contradiction (Hmod m).
  - now contradiction (Hcls n).
  - cbn. now rewrite app_nil_r.
Qed.

(** X13. A class that is not a module class is reported by a frame only
    when the current data is JSON serializable; the loop then goes on with
    the same data.  When the current data is a model instance, as it is
    after any conversion of a mapping or an instance, the report cannot be
    serialized: a TypeError leaves the generator and the stream ends
    there. *)
Theorem stream_report_of_plain_class
        (self : Pipeline) (input_data data0 v : value)
        (ms : list ModuleClass) (n : string) (post : list pyobj)
        (frames : list frame) :
  list_functions self = map OModule ms ++ OClass n :: post ->
  to_input self input_data = Return data0 ->
  sse_loop (map OModule ms) data0 = (frames, Return v) ->
  (is_BaseModel v = true ->
   exists e,
     exn_kind e = TypeError /\
     sse_generator self input_data
     = ((if sse self then [] else [not_activated_frame]) ++ frames, Raise e)) /\
  (json_serializable v = true ->
   sse_generator self input_data
   = let report := mkFrame invalid_module_message "Exception" (Raw v) in
     let warning := if sse self then [] else [not_activated_frame] in
     match sse_loop post v with
     | (rest, Return _) =>
         (warning ++ (frames ++ report :: rest) ++ [end_frame], Return tt)
     | (rest, Raise e) => (warning ++ frames ++ report :: rest, Raise e)
     end).
Proof.
  intros Hl Hconv Hloop. split.
  - intros Hmodel.
    exists (mkExn TypeError "Object is not JSON serializable").
    split; [reflexivity|].
    rewrite sse_generator_stages, Hconv, Hl, sse_loop_app, Hloop. cbv zeta.
    cbn -[gbind]. unfold sse_invalid.
    destruct v as [ |vb|vn|vs|vl|vd|c fields]; try discriminate Hmodel.
    cbn. now rewrite app_nil_r.
  - intros Hjson.
    rewrite sse_generator_stages, Hconv, Hl, sse_loop_app, Hloop. cbv zeta.
    rewrite gbind_returned. cbn -[gbind]. step_gen.
    unfold sse_invalid. rewrite Hjson. step_gen. rewrite gbind_returned.
    destruct (sse_loop post v) as [rest [v'|e]]; reflexivity.
Qed.

(** ** Counting and naming the frames *)

Lemma sse_module_count (m : ModuleClass) (v : value) :
  match snd (sse_module m v) with
  | Return _ => List.length (fst (sse_module m v)) = 3
  | Raise _ => List.length (fst (sse_module m v)) <= 2
  end.
Proof.
  unfold sse_module. step_gen.
  destruct (mod_new m) as [inst|e]; step_gen; [|lia].
  destruct (onProgressStartMessage m inst v) as [started|e]; step_gen; [|lia].
  destruct (run m (self_after started) (data_after started)) as [ran|e]; step_gen; [|lia].
  destruct (coerce_output m (fst ran)) as [v'|e]; step_gen; [|lia].
  destruct (onProgressEndMessage m (snd ran) v') as [ended|e]; step_gen; lia.
Qed.

Lemma sse_module_statuses (m : ModuleClass) (v : value) :
  Forall (fun f => In (status f) module_statuses) (fst (sse_module m v)).
Proof.
  unfold sse_module, module_statuses. step_gen.
  destruct (mod_new m) as [inst|e]; step_gen; [|constructor].
  destruct (onProgressStartMessage m inst v) as [started|e]; step_gen;
    [|constructor].
  constructor; [simpl; auto|].
  destruct (run m (self_after started) (data_after started)) as [ran|e]; step_gen; [|constructor].
  destruct (coerce_output m (fst ran)) as [v'|e]; step_gen; [|constructor].
  constructor; [simpl; auto|].
  destruct (onProgressEndMessage m (snd ran) v') as [ended|e]; step_gen;
    [|constructor].
  constructor; [simpl; auto|constructor].
Qed.

Lemma sse_loop_count (ms : list ModuleClass) :
  forall v,
    match snd (sse_loop (map OModule ms) v) with
    | Return _ =>
        List.length (fst (sse_loop (map OModule ms) v)) = 3 * List.length ms
    | Raise _ =>
        List.length (fst (sse_loop (map OModule ms) v)) < 3 * List.length ms
    end.
Proof.
  induction ms as [|m ms IH]; intros v; cbn -[gbind Nat.mul].
  - reflexivity.
  - rewrite gbind_lift. cbn -[gbind Nat.mul].
    rewrite gbind_fst, gbind_snd, length_app.
    pose proof (sse_module_count m v) as Hm.
    destruct (snd (sse_module m v)) as [v'|e].
    + specialize (IH v').
      destruct (snd (sse_loop (map OModule ms) v')); simpl List.length; lia.
    + simpl List.length. lia.
Qed.

Lemma sse_loop_module_statuses (ms : list ModuleClass) :
  forall v,
    Forall (fun f => In (status f) module_statuses)
           (fst (sse_loop (map OModule ms) v)).
Proof.
  induction ms as [|m ms IH]; intros v; cbn -[gbind]; [constructor|].
  rewrite gbind_lift. cbn -[gbind]. rewrite gbind_fst.
  apply Forall_app. split; [apply sse_module_statuses|].
  destruct (snd (sse_module m v)); [apply IH|constructor].
Qed.

Lemma module_classes (l : list pyobj) :
  forallb is_module_class l = true -> exists ms, l = map OModule ms.
Proof.
  induction l as [|o l IH]; simpl.
  - exists []. reflexivity.
  - destruct o as [f|m|n|n]; simpl; try discriminate.
    intros H. destruct (IH H) as (ms & ->). now exists (m :: ms).
Qed.

(** X14. On a streaming pipeline with N module classes as steps, the
    generator never yields more than 3N + 1 frames, and it yields exactly
    3N + 1 frames if and only if it is exhausted without raising. *)
Theorem stream_frame_count (self : Pipeline) (input_data : value)
        (ms : list ModuleClass) :
  sse self = true ->
  list_functions self = map OModule ms ->
  (snd (sse_generator self input_data) = Return tt <->
   List.length (fst (sse_generator self input_data)) = 3 * List.length ms + 1) /\
  List.length (fst (sse_generator self input_data)) <= 3 * List.length ms + 1.
Proof.
  intros Hsse Hl. rewrite sse_generator_stages, Hsse, Hl. cbv zeta.
  destruct (to_input self input_data) as [data0|e].
  - pose proof (sse_loop_count ms data0) as Hc.
    destruct (sse_loop (map OModule ms) data0) as [frames [v|e]];
      cbn [fst snd] in *; rewrite ?length_app; cbn [List.length app].
    + split; [split; [lia|reflexivity]|lia].
    + split; [split; [discriminate|lia]|lia].
  - cbn [fst snd List.length]. split; [split; [discriminate|lia]|lia].
Qed.

(** X15. Every frame the generator yields has one of the five statuses of
    the wire format; on a streaming pipeline whose steps are all module
    classes, as [modules] registers them, no frame has the Exception
    status. *)
Theorem stream_statuses (self : Pipeline) (input_data : value) :
  Forall (fun f => In (status f) frame_statuses)
         (fst (sse_generator self input_data)) /\
  (sse self = true ->
   forallb is_module_class (list_functions self) = true ->
   Forall (fun f => status f <> "Exception")
          (fst (sse_generator self input_data))).
Proof.
  split.
  - rewrite sse_generator_stages. cbv zeta.
    assert (Hwarn : Forall (fun f => In (status f) frame_statuses)
                           (if sse self then [] else [not_activated_frame])).
    { destruct (sse self); [constructor|].
      constructor; [cbn; auto 10|constructor]. }
    destruct (to_input self input_data) as [data0|e]; [|exact Hwarn].
    assert (Hloop : Forall (fun f => In (status f) frame_statuses)
                           (fst (sse_loop (list_functions self) data0))).
    { eapply Forall_impl; [|apply sse_loop_frames].
      intros f [H|[H|[H|[H _]]]]; rewrite H; cbn; auto 10. }
    destruct (sse_loop (list_functions self) data0) as [frames [v|e]];
      cbn [fst snd] in *; repeat (apply Forall_app; split); auto.
    constructor; [cbn; auto 10|constructor].
  - intros Hsse Hall. destruct (module_classes _ Hall) as (ms & Hl).
    rewrite sse_generator_stages, Hsse, Hl. cbv zeta.
    destruct (to_input self input_data) as [data0|e]; [|constructor].
    assert (Hloop : Forall (fun f => status f <> "Exception")
                           (fst (sse_loop (map OModule ms) data0))).
    { eapply Forall_impl; [|apply sse_loop_module_statuses].
      intros f [H|[H|[H|[]]]]; rewrite <- H; discriminate. }
    destruct (sse_loop (map OModule ms) data0) as [frames [v|e]];
      cbn [fst snd] in *; [|exact Hloop].
    repeat (apply Forall_app; split); auto.
    constructor; [discriminate|constructor].
Qed.




(** X18. [modules] reads the input schema from the annotation that [run]
    gives to a parameter named input: when the first module class has no
    such annotation, the call raises the KeyError of that lookup after all
    the units were appended, and both schemas stay unset. *)
Theorem modules_without_input_annotation
        (self : Pipeline) (m : ModuleClass) (ms : list ModuleClass) :
  input_model self = None ->
  output_model self = None ->
  list_functions self = [] ->
  (forall cls, annotation (run_annotations m) "input" <> Return cls) ->
  exists self',
    modules (map OModule (m :: ms)) self = (self', Raise (KeyError "input")) /\
    list_functions self' = map OModule (m :: ms) /\
    input_model self' = None /\
    output_model self' = None.
Proof.
  intros Hin Hout Hnil Hmissing.
  assert (Hkey : forall ann,
             (forall cls, annotation ann "input" <> Return cls) ->
             annotation ann "input" = Raise (KeyError "input")).
  { induction ann as [|[k cls] ann IH]; simpl; [reflexivity|].
    destruct (String.eqb k "input"); [|exact IH].
    intros H. now contradiction (H cls). }
  unfold modules. rewrite (modules_loop_classes (m :: ms)).
  unfold infer_models, infer_input_model, extend. simpl.
  rewrite Hin, Hnil. simpl. rewrite (Hkey _ Hmissing). simpl.
  eexists. split; [reflexivity|]. simpl. rewrite Hout. auto.
Qed.

(** ** Schema descriptors *)

(** X16. The two schema descriptors raise on a pipeline that has just been
    created; after a first registration through [functions] they are the
    descriptors of the first step's input schema and of the last step's
    output schema. *)
Theorem schema_descriptors_after_registration
        (schema : Model -> dict) (nm : string) (given : option string)
        (streaming : bool) (uuid4 : string)
        (units : list pyobj) (f : Function) (fs : list Function) (a b : Model) :
  Forall2 (fun o g => wrap o = Return (OFunction g)) units (f :: fs) ->
  fn_input_model f = Some a ->
  fn_output_model (last fs f) = Some b ->
  let created := init nm given streaming uuid4 in
  (exists e, get_input_schema schema created = Raise e) /\
  (exists e, get_output_schema schema created = Raise e) /\
  get_input_schema schema (fst (functions units created)) = Return (schema a) /\
  get_output_schema schema (fst (functions units created)) = Return (schema b).
Proof.
  intros Hw Ha Hb created.
  split; [eexists; reflexivity|]. split; [eexists; reflexivity|].
  unfold functions. rewrite (functions_loop_wrapped Hw).
  unfold infer_models, infer_input_model, infer_output_model, extend,
    get_input_schema, get_output_schema.
  simpl. rewrite (last_map OFunction fs f). simpl.
  rewrite Ha, Hb. split; reflexivity.
Qed.

End MoreProperties.

(** * The further properties on the sample objects *)

Lemma functions_appends_in_order_witness :
  list_functions (fst (functions (env := env0) [OCallable "addOne"; OFunction toY]
                                 two_steps))
  = list_functions two_steps ++ map OFunction [addOne; toY] /\
  name (fst (functions (env := env0) [OCallable "addOne"; OFunction toY] two_steps))
  = name two_steps /\
  id (fst (functions (env := env0) [OCallable "addOne"; OFunction toY] two_steps))
  = id two_steps /\
  sse (fst (functions (env := env0) [OCallable "addOne"; OFunction toY] two_steps))
  = sse two_steps.
Proof.
  apply (@functions_appends_in_order env0 two_steps
           [OCallable "addOne"; OFunction toY] [addOne; toY]).
  repeat constructor.
Defined.

Lemma functions_partial_on_error_witness :
  exists self',
    functions (env := env0)
              ([OFunction addOne] ++ OCallable "unknown" :: [OFunction double])
              (fresh false)
    = (self',
       Raise (PlainException "Cannot infer the schema of the callable")) /\
    list_functions self'
    = list_functions (fresh false) ++ map OFunction [addOne] /\
    input_model self' = input_model (fresh false) /\
    output_model self' = output_model (fresh false).
Proof.
  apply (@functions_partial_on_error env0 (fresh false)
           [OFunction addOne] [OFunction double] (OCallable "unknown")
           [addOne]
           (PlainException "Cannot infer the schema of the callable")).
  - repeat constructor.
  - reflexivity.
Defined.

Lemma registration_keeps_step_kind_witness :
  forallb is_Function (list_functions two_steps) = true /\
  forallb is_module_class (list_functions counting) = true.
Proof.
  split.
  - apply (proj1 (@registration_keeps_step_kind env0
                    (fresh false) two_steps
                    [OCallable "addOne"; OFunction double] (Return tt)));
      reflexivity.
  - apply (proj2 (@registration_keeps_step_kind env0
                    (fresh true) counting
                    [OModule Incr; OModule Incr] (Return tt)));
      reflexivity.
Defined.

Lemma compiled_instance_is_of_output_schema_witness :
  exists b fields dump,
    output_model relabelled = Some b /\
    validate (Environment := env0) b fields = Return dump /\
    VModel "X" (x_is 1) = VModel b dump.
Proof.
  apply (@compiled_instance_is_of_output_schema env0 relabelled
           (VModel "X" (x_is 1)) (VModel "X" (x_is 1))).
  - left. reflexivity.
  - reflexivity.
Defined.

Lemma build_success_was_validated_witness :
  exists a fields b out,
    input_model relabelled = Some a /\
    validate (Environment := env0) a (x_is 1) = Return fields /\
    output_model relabelled = Some b /\
    validate (Environment := env0) b out = Return (x_is 1).
Proof.
  apply (@build_success_was_validated env0 relabelled (x_is 1) (x_is 1)).
  left. reflexivity.
Defined.

Lemma build_and_abuild_agree_witness :
  build (env := env0) two_steps (x_is 1) = abuild (env := env0) two_steps (x_is 1).
Proof.
  apply (@build_and_abuild_agree env0 two_steps).
  repeat constructor.
  - exists addOne. split; reflexivity.
  - exists double. split; reflexivity.
Defined.

Lemma abuild_succeeds_iff_arun_returns_instance_witness :
  exists c,
    arun (env := env0) relabelled (VDict (x_is 1)) = Return (VModel c (x_is 1)).
Proof.
  apply (proj1 (@abuild_succeeds_iff_arun_returns_instance env0
                  relabelled (x_is 1) (x_is 1) eq_refl)).
  reflexivity.
Defined.

Lemma failed_message_openings_witness :
  (exists opening rest : string,
      In opening failure_openings /\
      "Value error during pipeline execution: x must be positive"
      = (opening ++ rest)%string) /\
  forall s : string,
    "Value error during pipeline execution: x must be positive"
    <> ("An unexpected error occurred: " ++ s)%string.
Proof.
  apply (@failed_message_openings env0 rejecting (x_is 1)
           "Value error during pipeline execution: x must be positive").
  left. reflexivity.
Defined.

Lemma module_iteration_stops_at_non_module_witness :
  arun_modules (env := env0) module_then_function (VDict (x_is 1))
  = Raise (mkExn TypeError "issubclass() arg 1 must be a class") /\
  (sse module_then_function = true ->
   arun (env := env0) module_then_function (VDict (x_is 1))
   = Raise (mkExn TypeError "issubclass() arg 1 must be a class")).
Proof.
  apply (@module_iteration_stops_at_non_module env0
           module_then_function (VDict (x_is 1))
           (VModel "X" (x_is 1)) (VModel "X" (x_is 2))
           [Incr] (OFunction addOne) [OModule Incr]).
  - reflexivity.
  - discriminate.
  - reflexivity.
  - reflexivity.
Defined.

Lemma stream_stops_at_non_class_witness :
  sse_generator (env := env0) functions_on_stream (VDict (x_is 1))
  = ([], Raise (mkExn TypeError "issubclass() arg 1 must be a class")).
Proof.
  apply (@stream_stops_at_non_class env0
           functions_on_stream (VDict (x_is 1))
           (VModel "X" (x_is 1)) (VModel "X" (x_is 1))
           [] (OFunction addOne) [] []).
  - reflexivity.
  - discriminate.
  - discriminate.
  - reflexivity.
  - reflexivity.
Defined.

Lemma stream_report_of_plain_class_witness :
  exists e,
    exn_kind e = TypeError /\
    sse_generator (env := env0) with_plain_class (VDict (x_is 1)) = ([], Raise e).
Proof.
  apply (proj1 (@stream_report_of_plain_class env0
                  with_plain_class (VDict (x_is 1))
                  (VModel "X" (x_is 1)) (VModel "X" (x_is 1))
                  [] "str" [] []
                  eq_refl eq_refl eq_refl)).
  reflexivity.
Defined.

Lemma stream_frame_count_witness :
  (snd (sse_generator (env := env0) counting (VDict (x_is 1))) = Return tt <->
   List.length (fst (sse_generator (env := env0) counting (VDict (x_is 1))))
   = 3 * 2 + 1) /\
  List.length (fst (sse_generator (env := env0) counting (VDict (x_is 1))))
  <= 3 * 2 + 1.
Proof.
  apply (@stream_frame_count env0 counting (VDict (x_is 1))
           [Incr; Incr] eq_refl eq_refl).
Defined.

Lemma stream_statuses_witness :
  Forall (fun f => status f <> "Exception")
         (fst (sse_generator (env := env0) counting (VDict (x_is 1)))).
Proof.
  apply (proj2 (@stream_statuses env0 counting (VDict (x_is 1))));
    reflexivity.
Defined.

Lemma schema_descriptors_after_registration_witness :
  get_input_schema schema0 two_steps = Return (schema0 "X") /\
  get_output_schema schema0 two_steps = Return (schema0 "X").
Proof.
  apply (proj2 (proj2 (@schema_descriptors_after_registration env0
                         schema0 "example_pipeline" None false "uuid"
                         [OCallable "addOne"; OFunction double]
                         addOne [double] "X" "X"
                         ltac:(repeat constructor) eq_refl eq_refl))).
Defined.


(** The start hook of [Resetting] modifies the object it is handed: the
    start frame carries the object as the hook left it, not the converted
    input, and [run] works on that object. *)
Example stream_shows_data_after_hook :
  sse_generator (env := env0) resetting (VDict (x_is 5))
  = ([mkFrame "Resetting" "onProgressStartMessage" (JsonOf (VModel "X" (x_is 0)));
      mkFrame "" "onFunctionCompleted" (JsonOf (VModel "X" (x_is 1)));
      mkFrame "Finished" "onProgressEndMessage" (JsonOf (VModel "X" (x_is 1)));
      end_frame],
     Return tt).
Proof. reflexivity. Qed.

Lemma modules_without_input_annotation_witness :
  exists self',
    modules (map OModule [Renamed; Incr]) (fresh true)
    = (self', Raise (KeyError "input")) /\
    list_functions self' = map OModule [Renamed; Incr] /\
    input_model self' = None /\
    output_model self' = None.
Proof.
  apply (@modules_without_input_annotation (fresh true) Renamed [Incr]
           eq_refl eq_refl eq_refl).
  intros cls. discriminate.
Defined.
